(** * Recipe API: owner-scoped list, filter and create endpoints

    A shallow embedding of [app/recipe/views.py]: the three viewsets
    ([TagViewSet], [IngredientViewSet], [RecipeViewSet]), the queryset
    operations they chain, the request parsing they do with Python's
    [int] and [str.split], and the part of the REST framework's request
    dispatch that the class attributes [authentication_classes] and
    [permission_classes] configure. *)

From Stdlib Require Import ZArith String Ascii Lia.
From Stdlib Require Import OrderedTypeEx.
From Stdlib Require DecimalString DecimalZ.
From stdpp Require Import base decidable option list sorting strings gmap.

Local Open Scope Z_scope.
Local Open Scope string_scope.

(** ** Exceptions and the result monad *)

(** The exceptions that can leave a view method.  [ValueError], [TypeError]
    and [MultipleObjectsReturned] are plain Python/ORM exceptions; the others
    are the framework's API exceptions. *)
Inductive exn : Type :=
  | ValueError
  | TypeError
  | MultipleObjectsReturned
  | Http404
  | NotAuthenticated
  | AuthenticationFailed
  | PermissionDenied
  | ValidationError (fields : list string).

Inductive result (A : Type) : Type :=
  | Ok (a : A)
  | Raise (e : exn).
Arguments Ok {A} a.
Arguments Raise {A} e.

Definition rbind {A B} (m : result A) (k : A → result B) : result B :=
  match m with
  | Ok a => k a
  | Raise e => Raise e
  end.

Notation "x <~ m ;; k" := (rbind m (λ x, k))
  (at level 100, m at next level, right associativity).

(** [[f(i) for i in xs]] where [f] may raise: the first failure wins. *)
Fixpoint rmap {A B} (f : A → result B) (xs : list A) : result (list B) :=
  match xs with
  | [] => Ok []
  | x :: rest => y <~ f x ;; ys <~ rmap f rest ;; Ok (y :: ys)
  end.

(** ** Python built-ins used by the views *)

Module Py.

(** Characters that [str.strip] removes (ASCII range). *)
Definition is_space (c : ascii) : bool :=
  let n := nat_of_ascii c in
  ((9 <=? n)%nat && (n <=? 13)%nat)
  || ((28 <=? n)%nat && (n <=? 32)%nat).

Definition digit_of (c : ascii) : option Z :=
  let n := nat_of_ascii c in
  if ((48 <=? n)%nat && (n <=? 57)%nat) then Some (Z.of_nat n - 48)
  else None.

Fixpoint lstrip (s : list ascii) : list ascii :=
  match s with
  | c :: rest => if is_space c then lstrip rest else s
  | [] => []
  end.

Definition strip (s : list ascii) : list ascii :=
  rev (lstrip (rev (lstrip s))).

(** Decimal digits, where a single underscore may separate two digits.
    [seen] tells whether the previous character was a digit. *)
Fixpoint digits (acc : Z) (seen : bool) (s : list ascii) : option Z :=
  match s with
  | [] => if seen then Some acc else None
  | c :: rest =>
      match digit_of c with
      | Some d => digits (acc * 10 + d) true rest
      | None =>
          if (Ascii.eqb c "_" && seen)%bool then digits acc false rest
          else None
      end
  end.

(** [int(s)] for a [str] argument, base ten: surrounding whitespace is
    dropped, one sign is allowed, anything else raises [ValueError].
    The model covers ASCII text and puts no bound on the number of
    digits. *)
Definition int (s : string) : result Z :=
  let body := strip (list_ascii_of_string s) in
  let signed :=
    match body with
    | c :: rest =>
        if Ascii.eqb c "-" then option_map Z.opp (digits 0 false rest)
        else if Ascii.eqb c "+" then digits 0 false rest
        else digits 0 false body
    | [] => None
    end in
  match signed with
  | Some n => Ok n
  | None => Raise ValueError
  end.

(** [s.split(sep)] for a one-character separator: never returns the
    empty list, and keeps empty fields. *)
Fixpoint split (sep : ascii) (s : string) : list string :=
  match s with
  | EmptyString => [EmptyString]
  | String c rest =>
      if Ascii.eqb c sep then EmptyString :: split sep rest
      else match split sep rest with
           | w :: ws => String c w :: ws
           | [] => [String c EmptyString]
           end
  end.

(** Truth value of a [str]: only the empty string is falsy. *)
Definition truthy (s : string) : bool :=
  match s with
  | EmptyString => false
  | String _ _ => true
  end.

(** [str(n)] for an [int]: decimal digits, with a minus sign for a
    negative number. *)
Definition str (n : Z) : string :=
  DecimalString.NilZero.string_of_int (Z.to_int n).

(** [sep.join(parts)] *)
Fixpoint join (sep : string) (parts : list string) : string :=
  match parts with
  | [] => EmptyString
  | [p] => p
  | p :: rest => p ++ sep ++ join sep rest
  end.

(** [s.count(c)] for a one-character [c]. *)
Fixpoint count (c : ascii) (s : string) : nat :=
  match s with
  | EmptyString => 0%nat
  | String d rest => (if Ascii.eqb d c then 1 else 0)%nat + count c rest
  end.

End Py.

(** ** Data model *)

(** Modelled from the spec: the model classes of [core/models.py] (User,
    Tag, Ingredient, Recipe), which the views import.  A foreign key is the
    primary key of the row it points to; the two many-to-many relations of
    a recipe are link tables of (recipe id, tag or ingredient id) pairs. *)
Record User : Type := mkUser {
  user_id : Z;
  email : string;
  user_name : string;
  is_active : bool;
  is_staff : bool;
  is_superuser : bool
}.

(** Modelled from the spec: the [Tag] model of [core/models.py], a name
    scoped to the user who owns it. *)
Record Tag : Type := mkTag {
  tag_id : Z;
  tag_name : string;
  tag_user : Z
}.

(** Modelled from the spec: the [Ingredient] model of [core/models.py],
    same shape as [Tag]. *)
Record Ingredient : Type := mkIngredient {
  ingredient_id : Z;
  ingredient_name : string;
  ingredient_user : Z
}.

(** Modelled from the spec: the [Recipe] model of [core/models.py]; the
    price is held in hundredths, the image as its storage path. *)
Record Recipe : Type := mkRecipe {
  recipe_id : Z;
  title : string;
  time_minutes : Z;
  price : Z;
  image : option string;
  recipe_user : Z
}.

#[global] Instance User_eq_dec : EqDecision User.
Proof. solve_decision. Defined.
#[global] Instance Tag_eq_dec : EqDecision Tag.
Proof. solve_decision. Defined.
#[global] Instance Ingredient_eq_dec : EqDecision Ingredient.
Proof. solve_decision. Defined.
#[global] Instance Recipe_eq_dec : EqDecision Recipe.
Proof. solve_decision. Defined.

(** The database and the file storage behind the image field. *)
Record Database : Type := mkDatabase {
  users : list User;
  tokens : list (string * Z);
  tag_table : list Tag;
  ingredient_table : list Ingredient;
  recipe_table : list Recipe;
  recipe_tags : list (Z * Z);
  recipe_ingredients : list (Z * Z);
  storage : gmap string string
}.

(** What [BaseViewSet] needs from the model behind its [queryset]
    attribute: the columns [id], [name] and [user], the table, and the
    link table reached through the reverse relation [recipe]. *)
Class OwnedModel (M : Type) := {
  pk : M → Z;
  name : M → string;
  owner : M → Z;
  build : Z → string → Z → M;
  objects : Database → list M;
  recipe_links : Database → list (Z * Z);
  with_objects : list M → Database → Database;
  owned_eq_dec :: EqDecision M
}.

#[global] Instance Tag_model : OwnedModel Tag := {
  pk := tag_id;
  name := tag_name;
  owner := tag_user;
  build := mkTag;
  objects := tag_table;
  recipe_links := recipe_tags;
  with_objects := λ rows db,
    mkDatabase (users db) (tokens db) rows (ingredient_table db)
      (recipe_table db) (recipe_tags db) (recipe_ingredients db) (storage db);
  owned_eq_dec := Tag_eq_dec
}.

#[global] Instance Ingredient_model : OwnedModel Ingredient := {
  pk := ingredient_id;
  name := ingredient_name;
  owner := ingredient_user;
  build := mkIngredient;
  objects := ingredient_table;
  recipe_links := recipe_ingredients;
  with_objects := λ rows db,
    mkDatabase (users db) (tokens db) (tag_table db) rows
      (recipe_table db) (recipe_tags db) (recipe_ingredients db) (storage db);
  owned_eq_dec := Ingredient_eq_dec
}.

(** ** Querysets *)

(** A queryset is the list of rows its SQL query selects, in order and
    with multiplicity: a join repeats a row once per matching link. *)
Module QuerySet.

(** [order_by('-name')]: [x] may come before [y] when [name y <= name x]
    in the byte order of strings. *)
Definition name_desc {M} `{OwnedModel M} (x y : M) : Prop :=
  String.leb (name y) (name x) = true.

#[global] Instance name_desc_dec {M} `{OwnedModel M} (x y : M) :
  Decision (name_desc x y).
Proof. unfold name_desc. apply _. Defined.

Section Owned.
Context {M : Type} `{OwnedModel M}.

(** [.filter(user=u)] *)
Definition filter_user (u : Z) (qs : list M) : list M :=
  filter (λ m, owner m = u) qs.

(** [.filter(recipe__isnull=False)]: inner join with the link table,
    one row per link that points to the record. *)
Definition filter_recipe_isnull_false (links : list (Z * Z))
    (qs : list M) : list M :=
  m ← qs; replicate (length (filter (λ l, l.2 = pk m) links)) m.

(** [.order_by('-name')] *)
Definition order_by_name_desc (qs : list M) : list M :=
  merge_sort name_desc qs.

(** [.distinct()]: equal rows are merged. *)
Definition distinct (qs : list M) : list M := remove_dups qs.
End Owned.

(** [.filter(user=u)] on recipes. *)
Definition filter_recipe_user (u : Z) (qs : list Recipe) : list Recipe :=
  filter (λ r, recipe_user r = u) qs.

(** [.filter(tags__id__in=ids)] and [.filter(ingredients__id__in=ids)]:
    inner join with the link table, one row per link of the recipe whose
    target id is in [ids]. *)
Definition filter_link_id_in (links : list (Z * Z)) (ids : list Z)
    (qs : list Recipe) : list Recipe :=
  r ← qs;
  replicate (length (filter (λ l, l.1 = recipe_id r ∧ l.2 ∈ ids) links)) r.

(** [.get(pk=i)] *)
Definition get (i : Z) (qs : list Recipe) : result Recipe :=
  match filter (λ r, recipe_id r = i) qs with
  | [] => Raise Http404
  | [r] => Ok r
  | _ :: _ :: _ => Raise MultipleObjectsReturned
  end.

End QuerySet.

(** ** Requests and responses *)

(** Values of a request body or of a serialized record. *)
Inductive Value : Type :=
  | VNull
  | VStr (s : string)
  | VInt (n : Z)
  | VIds (ids : list Z)
  | VFile (filename content : string).

(** A request as a view sees it.  [http_authorization] holds the words of
    the [Authorization] header, [query_params] the pairs of the query
    string in order, [data] the parsed body.  [user] is [request.user]:
    authentication fills it, and [None] is the anonymous user. *)
Record Request : Type := mkRequest {
  http_authorization : list string;
  query_params : list (string * string);
  data : gmap string Value;
  user : option User
}.

(** The request once authentication has set [request.user]. *)
Definition set_user (req : Request) (u : option User) : Request :=
  mkRequest (http_authorization req) (query_params req) (data req) u.

(** [query_params.get(key)]: the last value given for the key. *)
Definition query_get (key : string) (q : list (string * string))
    : option string :=
  last (omap (λ kv, if decide (kv.1 = key) then Some kv.2 else None) q).

(** A serialized record: field names with their values. *)
Definition Repr : Type := list (string * Value).

Inductive Body : Type :=
  | Many (rows : list Repr)
  | One (row : Repr)
  | Errors (fields : list string)
  | Empty.

Record Response : Type := mkResponse {
  status_code : Z;
  body : Body
}.

Definition HTTP_200_OK : Z := 200.
Definition HTTP_201_CREATED : Z := 201.
Definition HTTP_204_NO_CONTENT : Z := 204.
Definition HTTP_400_BAD_REQUEST : Z := 400.
Definition HTTP_401_UNAUTHORIZED : Z := 401.
Definition HTTP_403_FORBIDDEN : Z := 403.
Definition HTTP_404_NOT_FOUND : Z := 404.

(** What the client gets: a response, or an exception nobody handled. *)
Inductive Outcome : Type :=
  | Responded (r : Response)
  | Unhandled (e : exn).

(** ** The framework's request dispatch *)

Module Framework.

Inductive Authenticator : Type := TokenAuthentication.
Inductive Permission : Type := AllowAny | IsAuthenticated.

Definition lower_ascii (c : ascii) : ascii :=
  let n := nat_of_ascii c in
  if ((65 <=? n)%nat && (n <=? 90)%nat) then ascii_of_nat (n + 32)
  else c.

Fixpoint lower (s : string) : string :=
  match s with
  | EmptyString => EmptyString
  | String c rest => String (lower_ascii c) (lower rest)
  end.

Definition token_user (db : Database) (key : string) : option User :=
  uid ← snd <$> list_find (λ kv, kv.1 = key) (tokens db);
  snd <$> list_find (λ u, user_id u = uid.2) (users db).

(** [TokenAuthentication.authenticate]: no header, or a header of
    another scheme, leaves the request anonymous; a malformed header, an
    unknown key or an inactive user fails. *)
Definition authenticate (a : Authenticator) (db : Database)
    (req : Request) : result (option User) :=
  match a, http_authorization req with
  | TokenAuthentication, [] => Ok None
  | TokenAuthentication, keyword :: rest =>
      if decide (lower keyword = "token") then
        match rest with
        | [key] =>
            match token_user db key with
            | Some u =>
                if is_active u then Ok (Some u)
                else Raise AuthenticationFailed
            | None => Raise AuthenticationFailed
            end
        | _ => Raise AuthenticationFailed
        end
      else Ok None
  end.

Definition authenticate_header (a : Authenticator) : string :=
  match a with TokenAuthentication => "Token" end.

(** The first authenticator that recognises the request decides. *)
Fixpoint perform_authentication (authenticators : list Authenticator)
    (db : Database) (req : Request) : result (option User) :=
  match authenticators with
  | [] => Ok None
  | a :: rest =>
      found <~ authenticate a db req ;;
      match found with
      | Some u => Ok (Some u)
      | None => perform_authentication rest db req
      end
  end.

Definition has_permission (p : Permission) (req : Request) : bool :=
  match p with
  | AllowAny => true
  | IsAuthenticated => bool_decide (is_Some (user req))
  end.

(** [check_permissions] with [permission_denied]: a refused request that
    carries no successful authentication is [NotAuthenticated]. *)
Fixpoint check_permissions (authenticators : list Authenticator)
    (permissions : list Permission) (req : Request) : result unit :=
  match permissions with
  | [] => Ok tt
  | p :: rest =>
      if has_permission p req
      then check_permissions authenticators rest req
      else match authenticators, user req with
           | _ :: _, None => Raise NotAuthenticated
           | _, _ => Raise PermissionDenied
           end
  end.

(** [APIView.initial]: the request with [request.user] set, once
    authentication and the permission checks have passed. *)
Definition initial (authenticators : list Authenticator)
    (permissions : list Permission) (db : Database) (req : Request)
    : result Request :=
  u <~ perform_authentication authenticators db req ;;
  let req' := set_user req u in
  _ <~ check_permissions authenticators permissions req' ;;
  Ok req'.

(** [handle_exception]: API exceptions become responses, anything else
    is raised again. *)
Definition handle_exception (authenticators : list Authenticator)
    (e : exn) : Outcome :=
  match e with
  | NotAuthenticated | AuthenticationFailed =>
      match authenticators with
      | _ :: _ => Responded (mkResponse HTTP_401_UNAUTHORIZED Empty)
      | [] => Responded (mkResponse HTTP_403_FORBIDDEN Empty)
      end
  | PermissionDenied => Responded (mkResponse HTTP_403_FORBIDDEN Empty)
  | Http404 => Responded (mkResponse HTTP_404_NOT_FOUND Empty)
  | ValidationError fields =>
      Responded (mkResponse HTTP_400_BAD_REQUEST (Errors fields))
  | ValueError | TypeError | MultipleObjectsReturned => Unhandled e
  end.

(** [APIView.dispatch]: the handler runs only after [initial]; when
    anything raises, the database is as it was. *)
Definition dispatch (authenticators : list Authenticator)
    (permissions : list Permission)
    (handler : Database → Request → result (Response * Database))
    (db : Database) (req : Request) : Outcome * Database :=
  match (req' <~ initial authenticators permissions db req ;;
         handler db req') with
  | Ok (resp, db') => (Responded resp, db')
  | Raise e => (handle_exception authenticators e, db)
  end.

(** The key that [.filter(user=request.user)] compares with; the
    anonymous user has none. *)
Definition user_key (req : Request) : result Z :=
  match user req with
  | Some u => Ok (user_id u)
  | None => Raise TypeError
  end.

End Framework.

(** ** Serializers *)

(** Modelled from the spec: the serializer classes of
    [recipe/serializers.py], which the views name but do not define.  The
    tag and ingredient serializers expose [id] and [name] and accept a
    non-empty name; the recipe serializer accepts the scalar fields and the
    two id lists; the image serializer accepts a decodable image file. *)
Module serializers.

Inductive RecipeSerializerClass : Type :=
  | RecipeSerializer
  | RecipeDetailSerializer
  | RecipeImageSerializer.

(** What lies outside the program: the image decoder, and the storage
    path chosen for an uploaded file. *)
Record Services : Type := mkServices {
  decodable : string → bool;
  upload_to : Recipe → string → string
}.

(** Modelled from the spec: the output of [TagSerializer] and
    [IngredientSerializer] of [recipe/serializers.py]. *)
Definition owned_repr {M} `{OwnedModel M} (m : M) : Repr :=
  [("id", VInt (pk m)); ("name", VStr (name m))].

(** Modelled from the spec: [is_valid] of [TagSerializer] and
    [IngredientSerializer] of [recipe/serializers.py], which accept a
    non-empty name; the result is the validated name, or a validation
    error on [name]. *)
Definition validate_name (payload : gmap string Value) : result string :=
  match payload !! "name" with
  | Some (VStr s) =>
      if decide (s = "") then Raise (ValidationError ["name"]) else Ok s
  | _ => Raise (ValidationError ["name"])
  end.

Definition links_of (i : Z) (links : list (Z * Z)) : list Z :=
  snd <$> filter (λ l, l.1 = i) links.

Definition image_value (r : Recipe) : Value :=
  match image r with
  | Some path => VStr path
  | None => VNull
  end.

(** Modelled from the spec: the output of the three recipe serializers
    of [recipe/serializers.py]. *)
Definition recipe_repr (cls : RecipeSerializerClass) (db : Database)
    (r : Recipe) : Repr :=
  match cls with
  | RecipeImageSerializer =>
      [("id", VInt (recipe_id r)); ("image", image_value r)]
  | RecipeSerializer | RecipeDetailSerializer =>
      [("id", VInt (recipe_id r));
       ("title", VStr (title r));
       ("ingredients", VIds (links_of (recipe_id r) (recipe_ingredients db)));
       ("tags", VIds (links_of (recipe_id r) (recipe_tags db)));
       ("time_minutes", VInt (time_minutes r));
       ("price", VInt (price r))]
  end.

(** The validated data of a recipe payload: a field is [None] when the
    payload leaves it out. *)
Record Validated : Type := mkValidated {
  v_title : option string;
  v_time_minutes : option Z;
  v_price : option Z;
  v_tags : option (list Z);
  v_ingredients : option (list Z);
  v_image : option (string * string)
}.

Definition nothing : Validated :=
  mkValidated None None None None None None.

Definition text_field (required : bool) (field : string)
    (payload : gmap string Value) : result (option string) :=
  match payload !! field with
  | Some (VStr s) =>
      if decide (s = "") then Raise (ValidationError [field])
      else Ok (Some s)
  | Some _ => Raise (ValidationError [field])
  | None => if required then Raise (ValidationError [field]) else Ok None
  end.

Definition number_field (required : bool) (field : string)
    (payload : gmap string Value) : result (option Z) :=
  match payload !! field with
  | Some (VInt n) => Ok (Some n)
  | Some _ => Raise (ValidationError [field])
  | None => if required then Raise (ValidationError [field]) else Ok None
  end.

Definition ids_field (known : list Z) (field : string)
    (payload : gmap string Value) : result (option (list Z)) :=
  match payload !! field with
  | Some (VIds ids) =>
      if decide (Forall (λ i, i ∈ known) ids) then Ok (Some ids)
      else Raise (ValidationError [field])
  | Some _ => Raise (ValidationError [field])
  | None => Ok None
  end.

(** Modelled from the spec: [is_valid] of the recipe serializers of
    [recipe/serializers.py].  [partial] is set for PATCH, where no field
    is required.  The payload's other keys, [user] among them, are not
    fields of any serializer and are dropped. *)
Definition validate (svc : Services) (cls : RecipeSerializerClass)
    (db : Database) (partial : bool) (payload : gmap string Value)
    : result Validated :=
  match cls with
  | RecipeImageSerializer =>
      match payload !! "image" with
      | Some (VFile filename content) =>
          if decodable svc content
          then Ok (mkValidated None None None None None
                     (Some (filename, content)))
          else Raise (ValidationError ["image"])
      | _ => Raise (ValidationError ["image"])
      end
  | RecipeSerializer | RecipeDetailSerializer =>
      t <~ text_field (negb partial) "title" payload ;;
      m <~ number_field (negb partial) "time_minutes" payload ;;
      p <~ number_field (negb partial) "price" payload ;;
      tg <~ ids_field (tag_id <$> tag_table db) "tags" payload ;;
      ig <~ ids_field (ingredient_id <$> ingredient_table db)
              "ingredients" payload ;;
      Ok (mkValidated t m p tg ig None)
  end.

Definition next_id (ids : list Z) : Z := foldr Z.max 0 ids + 1.

Definition set_links (i : Z) (new : option (list Z))
    (links : list (Z * Z)) : list (Z * Z) :=
  match new with
  | Some ids => filter (λ l, l.1 ≠ i) links ++ ((λ t, (i, t)) <$> ids)
  | None => links
  end.

(** Modelled from the spec: the instance after the serializer's [update]
    has set every validated field; an uploaded file is given its storage
    path. *)
Definition assign (svc : Services) (v : Validated) (r : Recipe)
    : Recipe :=
  mkRecipe (recipe_id r)
    (default (title r) (v_title v))
    (default (time_minutes r) (v_time_minutes v))
    (default (price r) (v_price v))
    (match v_image v with
     | Some (filename, _) => Some (upload_to svc r filename)
     | None => image r
     end)
    (recipe_user r).

Definition store_file (svc : Services) (v : Validated) (r : Recipe)
    (files : gmap string string) : gmap string string :=
  match v_image v with
  | Some (filename, content) => <[upload_to svc r filename := content]> files
  | None => files
  end.

(** Modelled from the spec: [serializer.save()] of the recipe serializers
    on an existing instance; the image file goes to the storage. *)
Definition update (svc : Services) (v : Validated) (instance : Recipe)
    (db : Database) : Recipe * Database :=
  let saved := assign svc v instance in
  (saved,
   mkDatabase (users db) (tokens db) (tag_table db) (ingredient_table db)
     ((λ r, if decide (recipe_id r = recipe_id instance) then saved else r)
        <$> recipe_table db)
     (set_links (recipe_id instance) (v_tags v) (recipe_tags db))
     (set_links (recipe_id instance) (v_ingredients v)
        (recipe_ingredients db))
     (store_file svc v instance (storage db))).

(** Modelled from the spec: [serializer.save(user=u)] of [RecipeSerializer]
    without an instance; the new row's [user] is the keyword argument. *)
Definition create (v : Validated) (u : Z) (db : Database)
    : Recipe * Database :=
  let i := next_id (recipe_id <$> recipe_table db) in
  let made := mkRecipe i (default "" (v_title v))
                (default 0 (v_time_minutes v)) (default 0 (v_price v))
                None u in
  (made,
   mkDatabase (users db) (tokens db) (tag_table db) (ingredient_table db)
     (recipe_table db ++ [made])
     (set_links i (v_tags v) (recipe_tags db))
     (set_links i (v_ingredients v) (recipe_ingredients db))
     (storage db)).

End serializers.

(** ** The views *)

Import Framework.

Module BaseViewSet.

Definition authentication_classes : list Authenticator :=
  [TokenAuthentication].
Definition permission_classes : list Permission := [IsAuthenticated].

Inductive Action : Type := List | Create.

Section Model.
Context {M : Type} `{OwnedModel M}.

(** [self.queryset] of the two subclasses: [Model.objects.all()]. *)
Definition queryset (db : Database) : list M := objects db.

(** [int(self.request.query_params.get('assigned_only', 0))] *)
Definition assigned_only (req : Request) : result Z :=
  match query_get "assigned_only" (query_params req) with
  | Some s => Py.int s
  | None => Ok 0
  end.

Definition get_queryset (db : Database) (req : Request)
    : result (list M) :=
  flag <~ assigned_only req ;;
  let queryset :=
    if bool_decide (flag ≠ 0)
    then QuerySet.filter_recipe_isnull_false (recipe_links (M := M) db)
           (queryset db)
    else queryset db in
  u <~ user_key req ;;
  Ok (QuerySet.distinct
        (QuerySet.order_by_name_desc (QuerySet.filter_user u queryset))).

(** [serializer.save(user=self.request.user)] *)
Definition perform_create (validated_name : string) (db : Database)
    (req : Request) : result (M * Database) :=
  u <~ user_key req ;;
  let row := build (serializers.next_id (pk <$> objects db))
               validated_name u in
  Ok (row, with_objects (objects db ++ [row]) db).

(** [ListModelMixin.list] *)
Definition list_action (db : Database) (req : Request)
    : result (Response * Database) :=
  rows <~ get_queryset db req ;;
  Ok (mkResponse HTTP_200_OK (Many (serializers.owned_repr <$> rows)),
      db).

(** [CreateModelMixin.create] *)
Definition create (db : Database) (req : Request)
    : result (Response * Database) :=
  validated_name <~ serializers.validate_name (data req) ;;
  made <~ perform_create validated_name db req ;;
  Ok (mkResponse HTTP_201_CREATED
        (One (serializers.owned_repr made.1)), made.2).

Definition handler (a : Action) : Database → Request →
    result (Response * Database) :=
  match a with
  | List => list_action
  | Create => create
  end.

Definition view (a : Action) (db : Database) (req : Request)
    : Outcome * Database :=
  dispatch authentication_classes permission_classes (handler a) db req.
End Model.

End BaseViewSet.

Module TagViewSet.
Definition get_queryset := BaseViewSet.get_queryset (M := Tag).
Definition view := BaseViewSet.view (M := Tag).
End TagViewSet.

Module IngredientViewSet.
Definition get_queryset := BaseViewSet.get_queryset (M := Ingredient).
Definition view := BaseViewSet.view (M := Ingredient).
End IngredientViewSet.

Module RecipeViewSet.

Import serializers.

Definition serializer_class : RecipeSerializerClass := RecipeSerializer.
Definition authentication_classes : list Authenticator :=
  [TokenAuthentication].
Definition permission_classes : list Permission := [IsAuthenticated].

Inductive Action : Type :=
  | List
  | Create
  | Retrieve (pk : Z)
  | Update (pk : Z)
  | PartialUpdate (pk : Z)
  | Destroy (pk : Z)
  | UploadImage (pk : Z).

Definition queryset (db : Database) : list Recipe := recipe_table db.

Definition _params_to_ints (qs : string) : result (list Z) :=
  rmap Py.int (Py.split "," qs).

(** One [if param: queryset = queryset.filter(..._id__in=...)] step. *)
Definition filter_param (param : option string) (links : list (Z * Z))
    (queryset : list Recipe) : result (list Recipe) :=
  match param with
  | Some s =>
      if Py.truthy s then
        ids <~ _params_to_ints s ;;
        Ok (QuerySet.filter_link_id_in links ids queryset)
      else Ok queryset
  | None => Ok queryset
  end.

Definition get_queryset (db : Database) (req : Request)
    : result (list Recipe) :=
  let tags := query_get "tags" (query_params req) in
  let ingredients := query_get "ingredients" (query_params req) in
  let queryset := queryset db in
  queryset <~ filter_param tags (recipe_tags db) queryset ;;
  queryset <~ filter_param ingredients (recipe_ingredients db) queryset ;;
  u <~ user_key req ;;
  Ok (QuerySet.filter_recipe_user u queryset).

Definition get_serializer_class (a : Action) : RecipeSerializerClass :=
  match a with
  | Retrieve _ => RecipeDetailSerializer
  | UploadImage _ => RecipeImageSerializer
  | _ => serializer_class
  end.

(** [serializer.save(user=self.request.user)] *)
Definition perform_create (v : Validated) (db : Database) (req : Request)
    : result (Recipe * Database) :=
  u <~ user_key req ;;
  Ok (serializers.create v u db).

(** [GenericAPIView.get_object]: the row of [get_queryset()] with the
    primary key of the URL. *)
Definition get_object (db : Database) (req : Request) (pk : Z)
    : result Recipe :=
  rows <~ get_queryset db req ;;
  QuerySet.get pk rows.

Definition upload_image (svc : Services) (pk : Z) (db : Database)
    (req : Request) : result (Response * Database) :=
  recipe <~ get_object db req pk ;;
  let cls := get_serializer_class (UploadImage pk) in
  match validate svc cls db false (data req) with
  | Ok v =>
      let saved := serializers.update svc v recipe db in
      Ok (mkResponse HTTP_200_OK (One (recipe_repr cls saved.2 saved.1)),
          saved.2)
  | Raise (ValidationError fields) =>
      Ok (mkResponse HTTP_400_BAD_REQUEST (Errors fields), db)
  | Raise e => Raise e
  end.

Definition list_action (db : Database) (req : Request)
    : result (Response * Database) :=
  rows <~ get_queryset db req ;;
  Ok (mkResponse HTTP_200_OK
        (Many (recipe_repr (get_serializer_class List) db <$> rows)), db).

Definition create (svc : Services) (db : Database) (req : Request)
    : result (Response * Database) :=
  let cls := get_serializer_class Create in
  v <~ validate svc cls db false (data req) ;;
  made <~ perform_create v db req ;;
  Ok (mkResponse HTTP_201_CREATED (One (recipe_repr cls made.2 made.1)),
      made.2).

Definition retrieve (pk : Z) (db : Database) (req : Request)
    : result (Response * Database) :=
  recipe <~ get_object db req pk ;;
  Ok (mkResponse HTTP_200_OK
        (One (recipe_repr (get_serializer_class (Retrieve pk)) db recipe)),
      db).

(** [UpdateModelMixin.update]; [partial] is set for PATCH. *)
Definition update (svc : Services) (partial : bool) (pk : Z)
    (db : Database) (req : Request) : result (Response * Database) :=
  recipe <~ get_object db req pk ;;
  let cls :=
    get_serializer_class (if partial then PartialUpdate pk else Update pk)
  in
  v <~ validate svc cls db partial (data req) ;;
  let saved := serializers.update svc v recipe db in
  Ok (mkResponse HTTP_200_OK (One (recipe_repr cls saved.2 saved.1)),
      saved.2).

Definition destroy (pk : Z) (db : Database) (req : Request)
    : result (Response * Database) :=
  recipe <~ get_object db req pk ;;
  Ok (mkResponse HTTP_204_NO_CONTENT Empty,
      mkDatabase (users db) (tokens db) (tag_table db)
        (ingredient_table db)
        (filter (λ r, recipe_id r ≠ recipe_id recipe) (recipe_table db))
        (filter (λ l, l.1 ≠ recipe_id recipe) (recipe_tags db))
        (filter (λ l, l.1 ≠ recipe_id recipe) (recipe_ingredients db))
        (storage db)).

Definition handler (svc : Services) (a : Action) : Database → Request →
    result (Response * Database) :=
  match a with
  | List => list_action
  | Create => create svc
  | Retrieve pk => retrieve pk
  | Update pk => update svc false pk
  | PartialUpdate pk => update svc true pk
  | Destroy pk => destroy pk
  | UploadImage pk => upload_image svc pk
  end.

Definition view (svc : Services) (a : Action) (db : Database)
    (req : Request) : Outcome * Database :=
  dispatch authentication_classes permission_classes (handler svc a)
    db req.

End RecipeViewSet.

(** The three routes of the API. *)
Inductive Endpoint : Type :=
  | Tags (a : BaseViewSet.Action)
  | Ingredients (a : BaseViewSet.Action)
  | Recipes (a : RecipeViewSet.Action).

Definition api (svc : serializers.Services) (e : Endpoint) (db : Database)
    (req : Request) : Outcome * Database :=
  match e with
  | Tags a => TagViewSet.view a db req
  | Ingredients a => IngredientViewSet.view a db req
  | Recipes a => RecipeViewSet.view svc a db req
  end.

(** ** Notions used in the statements *)

(** How often a row occurs in a list. *)
Definition occurrences {A} `{EqDecision A} (x : A) (l : list A) : nat :=
  length (filter (λ y, y = x) l).


(** ** A small database: two tenants *)

Module Sample.

Definition alice : User :=
  mkUser 1 "alice@example.com" "Alice" true false false.
Definition bob : User := mkUser 2 "bob@example.com" "Bob" true false false.

Definition vegan : Tag := mkTag 1 "Vegan" 1.
Definition dessert : Tag := mkTag 2 "Dessert" 1.
Definition lunch : Tag := mkTag 3 "Lunch" 2.
Definition zest : Tag := mkTag 4 "Zest" 1.

Definition salt : Ingredient := mkIngredient 1 "Salt" 1.
Definition cabbage : Ingredient := mkIngredient 2 "Cabbage" 1.
Definition onion : Ingredient := mkIngredient 3 "Onion" 2.

Definition borsch : Recipe := mkRecipe 1 "Borsch" 30 799 None 1.
Definition risotto : Recipe := mkRecipe 2 "Risotto" 20 830 None 1.
Definition soup : Recipe := mkRecipe 3 "Soup" 5 100 None 2.

(** Borsch carries both of Alice's assigned tags and both of her
    ingredients; Zest is assigned to no recipe. *)
Definition db : Database :=
  mkDatabase [alice; bob] [("key-alice", 1); ("key-bob", 2)]
    [vegan; dessert; lunch; zest]
    [salt; cabbage; onion]
    [borsch; risotto; soup]
    [(1, 1); (1, 2); (2, 1); (3, 3)]
    [(1, 1); (1, 2); (3, 3)]
    ∅.

(** A request of Alice as the views see it, and as the client sends it. *)
Definition as_alice (q : list (string * string)) : Request :=
  mkRequest ["Token"; "key-alice"] q ∅ (Some alice).

Definition from_alice (q : list (string * string))
    (payload : gmap string Value) : Request :=
  mkRequest ["Token"; "key-alice"] q payload None.

Definition anonymous : Request := mkRequest [] [] ∅ None.
Definition bad_token : Request := mkRequest ["Token"; "nobody"] [] ∅ None.

(** A full update of recipe 1 that also names another owner. *)
Definition put_with_owner : Request :=
  from_alice []
    {[ "title" := VStr "Taken"; "time_minutes" := VInt 1;
       "price" := VInt 1; "user" := VInt 2 ]}.

(** An image decoder that accepts the files starting with [JPEG]. *)
Definition svc : serializers.Services :=
  serializers.mkServices (String.prefix "JPEG")
    (λ r filename, "uploads/recipe/" ++ filename).

End Sample.

(** * Properties *)

(** ** Python built-ins on concrete inputs *)

Example int_plain : Py.int "12" = Ok 12.
Proof. reflexivity. Qed.

Example int_spaces_sign : Py.int " -0_7 " = Ok (-7).
Proof. reflexivity. Qed.

Example int_word : Py.int "true" = Raise ValueError.
Proof. reflexivity. Qed.

Example int_empty : Py.int "" = Raise ValueError.
Proof. reflexivity. Qed.

Example split_two : Py.split "," "1,2" = ["1"; "2"].
Proof. reflexivity. Qed.

Example split_trailing : Py.split "," "1," = ["1"; ""].
Proof. reflexivity. Qed.

Lemma int_raises_only_ValueError s e : Py.int s = Raise e → e = ValueError.
Proof.
  unfold Py.int.
  destruct (Py.strip (list_ascii_of_string s)) as [|c rest]; simpl.
  - congruence.
  - repeat case_match; congruence.
Qed.

Lemma rmap_int_raises_only_ValueError xs e :
  rmap Py.int xs = Raise e → e = ValueError.
Proof.
  induction xs as [|x xs IH]; simpl; [discriminate|].
  destruct (Py.int x) eqn:Hx; simpl.
  - destruct (rmap Py.int xs); simpl; [discriminate|].
    intros [= <-]. by apply IH.
  - intros [= <-]. by eapply int_raises_only_ValueError.
Qed.

(** ** The order behind [order_by('-name')] *)

Lemma leb_iff (a b : string) :
  String.leb a b = true ↔ a = b ∨ String_as_OT.lt a b.
Proof.
  unfold String.leb.
  destruct (String.compare a b) eqn:E; split; intros Hab; try done.
  - left. by apply String.compare_eq_iff.
  - right. by apply String_as_OT.cmp_lt.
  - destruct Hab as [->|Hlt].
    + assert (String_as_OT.cmp b b = Eq) as Hbb
        by by apply String_as_OT.cmp_eq.
      unfold String_as_OT.cmp in Hbb. congruence.
    + apply String_as_OT.cmp_lt in Hlt.
      unfold String_as_OT.cmp in Hlt. congruence.
Qed.

Lemma leb_trans (a b c : string) :
  String.leb a b = true → String.leb b c = true → String.leb a c = true.
Proof.
  rewrite !leb_iff. intros [->|Hab] [->|Hbc]; auto.
  right. by eapply String_as_OT.lt_trans.
Qed.

Section Order.
Context {M : Type} `{OwnedModel M}.

#[global] Instance name_desc_total : Total (QuerySet.name_desc (M := M)).
Proof.
  intros x y. unfold QuerySet.name_desc.
  destruct (String.leb_total (name x) (name y)); auto.
Qed.

#[global] Instance name_desc_trans :
  Transitive (QuerySet.name_desc (M := M)).
Proof.
  intros x y z. unfold QuerySet.name_desc. intros Hxy Hyz.
  by eapply leb_trans.
Qed.

Lemma remove_dups_sublist (l : list M) : remove_dups l `sublist_of` l.
Proof.
  induction l as [|x l IH]; simpl; [constructor|].
  case_decide; by constructor.
Qed.

Lemma StronglySorted_sublist (R : relation M) (l k : list M) :
  k `sublist_of` l → StronglySorted R l → StronglySorted R k.
Proof.
  induction 1 as [|x k l Hsub IH|x k l Hsub IH]; intros Hs.
  - constructor.
  - apply StronglySorted_inv in Hs as [Hl Hx].
    constructor; [by apply IH|].
    rewrite Forall_forall in Hx |- *. intros y Hy.
    apply Hx. by eapply elem_of_sublist.
  - apply StronglySorted_inv in Hs as [Hl _]. by apply IH.
Qed.

(** The chain [.filter(user=u).order_by('-name').distinct()]. *)
Lemma scoped_sorted_distinct (u : Z) (qs : list M) :
  let rows := QuerySet.distinct
                (QuerySet.order_by_name_desc (QuerySet.filter_user u qs)) in
  (∀ m, m ∈ rows ↔ m ∈ qs ∧ owner m = u)
  ∧ NoDup rows
  ∧ StronglySorted QuerySet.name_desc rows.
Proof.
  unfold QuerySet.distinct, QuerySet.order_by_name_desc,
    QuerySet.filter_user. simpl. split_and!.
  - intros m. rewrite elem_of_remove_dups, merge_sort_Permutation,
      list_elem_of_filter. tauto.
  - apply NoDup_remove_dups.
  - eapply StronglySorted_sublist; [apply remove_dups_sublist|].
    apply StronglySorted_merge_sort; apply _.
Qed.

(** The join of [.filter(recipe__isnull=False)] keeps exactly the
    records that some link points to. *)
Lemma elem_of_filter_recipe_isnull_false links (qs : list M) (m : M) :
  m ∈ QuerySet.filter_recipe_isnull_false links qs
  ↔ m ∈ qs ∧ ∃ rid, (rid, pk m) ∈ links.
Proof.
  unfold QuerySet.filter_recipe_isnull_false.
  rewrite list_elem_of_bind. split.
  - intros (m' & Hrep & Hm').
    apply elem_of_replicate in Hrep as [-> Hn]. split; [done|].
    destruct (filter (λ l : Z * Z, l.2 = pk m') links) as [|[rid t] ?] eqn:Hf;
      [done|].
    assert ((rid, t) ∈ filter (λ l : Z * Z, l.2 = pk m') links) as Hin
      by (rewrite Hf; left).
    apply list_elem_of_filter in Hin as [Ht Hin]. simpl in Ht. subst t.
    by exists rid.
  - intros (Hm & rid & Hrid). exists m. split; [|done].
    apply elem_of_replicate. split; [done|].
    assert ((rid, pk m) ∈ filter (λ l : Z * Z, l.2 = pk m) links) as Hin
      by by apply list_elem_of_filter.
    destruct (filter (λ l : Z * Z, l.2 = pk m) links); [|done].
    by apply elem_of_nil in Hin.
Qed.
End Order.

(** ** Authentication and dispatch *)

Lemma authenticate_raises a db req e :
  authenticate a db req = Raise e → e = AuthenticationFailed.
Proof.
  unfold authenticate. repeat case_match; congruence.
Qed.

Lemma perform_authentication_raises auths db req e :
  perform_authentication auths db req = Raise e → e = AuthenticationFailed.
Proof.
  induction auths as [|a auths IH]; simpl; [discriminate|].
  destruct (authenticate a db req) as [[u|]|e'] eqn:Ha; simpl.
  - discriminate.
  - apply IH.
  - intros [= <-]. by eapply authenticate_raises.
Qed.

(** A request that authenticates reaches the handler with
    [request.user] set. *)
Lemma dispatch_authenticated auths handler db req u :
  perform_authentication auths db req = Ok (Some u) →
  dispatch auths [IsAuthenticated] handler db req =
    match handler db (set_user req (Some u)) with
    | Ok (resp, db') => (Responded resp, db')
    | Raise e => (handle_exception auths e, db)
    end.
Proof.
  intros Hauth. unfold dispatch, initial. rewrite Hauth. simpl.
  by destruct (handler db (set_user req (Some u))) as [[??]|?].
Qed.

(** A request that does not authenticate never reaches the handler. *)
Lemma dispatch_unauthenticated a auths handler db req :
  (∀ u, perform_authentication (a :: auths) db req ≠ Ok (Some u)) →
  dispatch (a :: auths) [IsAuthenticated] handler db req =
    (Responded (mkResponse HTTP_401_UNAUTHORIZED Empty), db).
Proof.
  intros Hno. unfold dispatch, initial.
  destruct (perform_authentication (a :: auths) db req) as [[u|]|e] eqn:Hp.
  - by destruct (Hno u).
  - reflexivity.
  - apply perform_authentication_raises in Hp as ->. reflexivity.
Qed.

(** ** The recipe filters *)

Lemma elem_of_filter_link_id_in links ids qs (r : Recipe) :
  r ∈ QuerySet.filter_link_id_in links ids qs
  ↔ r ∈ qs ∧ ∃ t, t ∈ ids ∧ (recipe_id r, t) ∈ links.
Proof.
  unfold QuerySet.filter_link_id_in. rewrite list_elem_of_bind. split.
  - intros (r' & Hrep & Hr').
    apply elem_of_replicate in Hrep as [-> Hn]. split; [done|].
    destruct (filter (λ l : Z * Z, l.1 = recipe_id r' ∧ l.2 ∈ ids) links)
      as [|[i t] ?] eqn:Hf; [done|].
    assert ((i, t) ∈ filter (λ l : Z * Z, l.1 = recipe_id r' ∧ l.2 ∈ ids)
              links) as Hin by (rewrite Hf; left).
    apply list_elem_of_filter in Hin as [[Hi Ht] Hin]. simpl in *. subst i.
    by exists t.
  - intros (Hr & t & Ht & Hlink). exists r. split; [|done].
    apply elem_of_replicate. split; [done|].
    assert ((recipe_id r, t) ∈
              filter (λ l : Z * Z, l.1 = recipe_id r ∧ l.2 ∈ ids) links)
      as Hin by by apply list_elem_of_filter.
    destruct (filter _ links); [|done].
    by apply elem_of_nil in Hin.
Qed.

Lemma filter_param_subset param links qs qs' :
  RecipeViewSet.filter_param param links qs = Ok qs' →
  ∀ r, r ∈ qs' → r ∈ qs.
Proof.
  unfold RecipeViewSet.filter_param.
  destruct param as [s|]; [destruct (Py.truthy s)|];
    try (intros [= <-]; done).
  destruct (RecipeViewSet._params_to_ints s); simpl; [|discriminate].
  intros [= <-] r Hr. by apply elem_of_filter_link_id_in in Hr as [? _].
Qed.

Lemma filter_param_raises param links qs e :
  RecipeViewSet.filter_param param links qs = Raise e → e = ValueError.
Proof.
  unfold RecipeViewSet.filter_param.
  destruct param as [s|]; [destruct (Py.truthy s)|]; try discriminate.
  destruct (RecipeViewSet._params_to_ints s) eqn:Hs; simpl; [discriminate|].
  intros [= <-]. by eapply rmap_int_raises_only_ValueError.
Qed.

(** What [RecipeViewSet.get_queryset] returns, when it returns. *)
Lemma recipe_get_queryset_Ok db req u rows :
  user req = Some u →
  RecipeViewSet.get_queryset db req = Ok rows →
  ∃ q1 q2,
    RecipeViewSet.filter_param (query_get "tags" (query_params req))
      (recipe_tags db) (recipe_table db) = Ok q1
    ∧ RecipeViewSet.filter_param (query_get "ingredients" (query_params req))
        (recipe_ingredients db) q1 = Ok q2
    ∧ rows = QuerySet.filter_recipe_user (user_id u) q2.
Proof.
  intros Hu. unfold RecipeViewSet.get_queryset, RecipeViewSet.queryset,
    user_key. rewrite Hu.
  destruct (RecipeViewSet.filter_param (query_get "tags" _) _ _) as [q1|]
    eqn:H1; simpl; [|discriminate].
  destruct (RecipeViewSet.filter_param (query_get "ingredients" _) _ _)
    as [q2|] eqn:H2; simpl; [|discriminate].
  intros [= <-]. by exists q1, q2.
Qed.

Lemma recipe_get_queryset_raises db req u e :
  user req = Some u →
  RecipeViewSet.get_queryset db req = Raise e → e = ValueError.
Proof.
  intros Hu. unfold RecipeViewSet.get_queryset, RecipeViewSet.queryset,
    user_key. rewrite Hu.
  destruct (RecipeViewSet.filter_param (query_get "tags" _) _ _) as [q1|]
    eqn:H1; simpl.
  - destruct (RecipeViewSet.filter_param (query_get "ingredients" _) _ _)
      as [q2|] eqn:H2; simpl; [discriminate|].
    intros [= <-]. by eapply filter_param_raises.
  - intros [= <-]. by eapply filter_param_raises.
Qed.

(** What [BaseViewSet.get_queryset] returns, when it returns. *)
Lemma base_get_queryset_Ok {M} `{OwnedModel M} db req u (rows : list M) :
  user req = Some u →
  BaseViewSet.get_queryset db req = Ok rows →
  ∃ flag, BaseViewSet.assigned_only req = Ok flag
    ∧ rows = QuerySet.distinct (QuerySet.order_by_name_desc
               (QuerySet.filter_user (user_id u)
                  (if bool_decide (flag ≠ 0)
                   then QuerySet.filter_recipe_isnull_false
                          (recipe_links (M := M) db)
                          (objects db)
                   else objects db))).
Proof.
  intros Hu. unfold BaseViewSet.get_queryset, BaseViewSet.queryset, user_key.
  rewrite Hu. destruct (BaseViewSet.assigned_only req) as [flag|] eqn:Hf;
    simpl; [|discriminate].
  intros [= <-]. by exists flag.
Qed.

Lemma base_get_queryset_raises {M} `{OwnedModel M} db req u e :
  user req = Some u →
  BaseViewSet.get_queryset (M := M) db req = Raise e → e = ValueError.
Proof.
  intros Hu. unfold BaseViewSet.get_queryset, user_key. rewrite Hu.
  destruct (BaseViewSet.assigned_only req) as [flag|] eqn:Hf; simpl;
    [discriminate|].
  intros [= <-]. unfold BaseViewSet.assigned_only in Hf.
  destruct (query_get _ _); [|discriminate].
  by eapply int_raises_only_ValueError.
Qed.

Lemma base_get_queryset_scoped {M} `{OwnedModel M} db req u (rows : list M) :
  user req = Some u →
  BaseViewSet.get_queryset db req = Ok rows →
  ∀ m, m ∈ rows → m ∈ objects db ∧ owner m = user_id u.
Proof.
  intros Hu Hq m Hm.
  destruct (base_get_queryset_Ok db req u rows Hu Hq) as (flag & _ & ->).
  apply (proj1 (scoped_sorted_distinct _ _)) in Hm as [Hm Ho].
  split; [|done]. case_bool_decide; [|done].
  by apply elem_of_filter_recipe_isnull_false in Hm as [? _].
Qed.

Lemma recipe_get_queryset_scoped db req u rows :
  user req = Some u →
  RecipeViewSet.get_queryset db req = Ok rows →
  ∀ r, r ∈ rows → r ∈ recipe_table db ∧ recipe_user r = user_id u.
Proof.
  intros Hu Hq r Hr.
  destruct (recipe_get_queryset_Ok db req u rows Hu Hq)
    as (q1 & q2 & H1 & H2 & ->).
  apply list_elem_of_filter in Hr as [Ho Hr]. split; [|done].
  eapply filter_param_subset; [exact H1|].
  eapply filter_param_subset; [exact H2|]. done.
Qed.

Lemma nothing_owned_nil {A} (rows : list A) (P : A → Prop) :
  (∀ x, x ∈ rows → P x) → (∀ x, P x → False) → rows = [].
Proof.
  destruct rows as [|x rows]; [done|]. intros Hall Hnone.
  destruct (Hnone x). apply Hall. left.
Qed.

(** ** Owner scoping of the list endpoints *)

(** C1: for a request of user [u], every row that the tag, ingredient or
    recipe list query returns is a row of the table owned by [u]; when
    [u] owns none of the rows the result is the empty list; and the query
    raises nothing but the [ValueError] of a malformed parameter, so
    records of another tenant give an empty result, not an error. *)
Theorem list_only_own_records db req u :
  user req = Some u →
  (∀ rows, TagViewSet.get_queryset db req = Ok rows →
     (∀ t, t ∈ rows → t ∈ tag_table db ∧ tag_user t = user_id u)
     ∧ ((∀ t, t ∈ tag_table db → tag_user t ≠ user_id u) → rows = []))
  ∧ (∀ rows, IngredientViewSet.get_queryset db req = Ok rows →
     (∀ i, i ∈ rows → i ∈ ingredient_table db ∧ ingredient_user i = user_id u)
     ∧ ((∀ i, i ∈ ingredient_table db → ingredient_user i ≠ user_id u) →
        rows = []))
  ∧ (∀ rows, RecipeViewSet.get_queryset db req = Ok rows →
     (∀ r, r ∈ rows → r ∈ recipe_table db ∧ recipe_user r = user_id u)
     ∧ ((∀ r, r ∈ recipe_table db → recipe_user r ≠ user_id u) → rows = []))
  ∧ (∀ e, TagViewSet.get_queryset db req = Raise e
          ∨ IngredientViewSet.get_queryset db req = Raise e
          ∨ RecipeViewSet.get_queryset db req = Raise e → e = ValueError).
Proof.
  intros Hu. split_and!.
  - intros rows Hq.
    pose proof (base_get_queryset_scoped db req u rows Hu Hq) as Hs.
    split; [exact Hs|]. intros Hnone.
    apply (nothing_owned_nil rows (λ _, False)); [|done].
    intros t Ht. destruct (Hs t Ht) as [Hin Ho]. by apply (Hnone t).
  - intros rows Hq.
    pose proof (base_get_queryset_scoped db req u rows Hu Hq) as Hs.
    split; [exact Hs|]. intros Hnone.
    apply (nothing_owned_nil rows (λ _, False)); [|done].
    intros i Hi. destruct (Hs i Hi) as [Hin Ho]. by apply (Hnone i).
  - intros rows Hq.
    pose proof (recipe_get_queryset_scoped db req u rows Hu Hq) as Hs.
    split; [exact Hs|]. intros Hnone.
    apply (nothing_owned_nil rows (λ _, False)); [|done].
    intros r Hr. destruct (Hs r Hr) as [Hin Ho]. by apply (Hnone r).
  - intros e [He|[He|He]].
    + by eapply (base_get_queryset_raises (M := Tag)).
    + by eapply (base_get_queryset_raises (M := Ingredient)).
    + by eapply recipe_get_queryset_raises.
Qed.

Lemma list_only_own_records_witness :
  user (Sample.as_alice [("tags", "3")]) = Some Sample.alice
  ∧ RecipeViewSet.get_queryset Sample.db (Sample.as_alice [("tags", "3")])
    = Ok []
  ∧ ∀ rows,
      TagViewSet.get_queryset Sample.db (Sample.as_alice [("tags", "3")])
      = Ok rows →
      ∀ t, t ∈ rows → t ∈ tag_table Sample.db ∧ tag_user t = 1.
Proof.
  split; [reflexivity|]. split; [vm_compute; reflexivity|].
  intros rows Hq.
  exact (proj1 (proj1 (list_only_own_records Sample.db
                         (Sample.as_alice [("tags", "3")]) Sample.alice
                         eq_refl) rows Hq)).
Defined.

(** ** Tag and ingredient lists *)

(** C7: without [assigned_only], the tag and the ingredient list query of
    user [u] returns exactly the rows of the table that [u] owns, none of
    them twice, in descending order of name. *)
Theorem list_all_sorted_distinct db req u :
  user req = Some u →
  query_get "assigned_only" (query_params req) = None →
  (∃ rows, TagViewSet.get_queryset db req = Ok rows
     ∧ (∀ t, t ∈ rows ↔ t ∈ tag_table db ∧ tag_user t = user_id u)
     ∧ NoDup rows
     ∧ StronglySorted
         (λ x y, String.leb (tag_name y) (tag_name x) = true) rows)
  ∧ (∃ rows, IngredientViewSet.get_queryset db req = Ok rows
     ∧ (∀ i, i ∈ rows ↔
             i ∈ ingredient_table db ∧ ingredient_user i = user_id u)
     ∧ NoDup rows
     ∧ StronglySorted
         (λ x y, String.leb (ingredient_name y) (ingredient_name x) = true)
         rows).
Proof.
  intros Hu Hq. split.
  - eexists. split.
    + unfold TagViewSet.get_queryset, BaseViewSet.get_queryset,
        BaseViewSet.assigned_only, user_key. rewrite Hq, Hu. reflexivity.
    + destruct (scoped_sorted_distinct (M := Tag) (user_id u) (tag_table db))
        as (Hin & Hnd & Hs).
      split_and!; [exact Hin|exact Hnd|exact Hs].
  - eexists. split.
    + unfold IngredientViewSet.get_queryset, BaseViewSet.get_queryset,
        BaseViewSet.assigned_only, user_key. rewrite Hq, Hu. reflexivity.
    + destruct (scoped_sorted_distinct (M := Ingredient) (user_id u)
                  (ingredient_table db)) as (Hin & Hnd & Hs).
      split_and!; [exact Hin|exact Hnd|exact Hs].
Qed.

Lemma list_all_sorted_distinct_witness :
  TagViewSet.get_queryset Sample.db (Sample.as_alice [])
  = Ok [Sample.zest; Sample.vegan; Sample.dessert]
  ∧ ∃ rows, TagViewSet.get_queryset Sample.db (Sample.as_alice []) = Ok rows
      ∧ (∀ t, t ∈ rows ↔ t ∈ tag_table Sample.db ∧ tag_user t = 1)
      ∧ NoDup rows
      ∧ StronglySorted
          (λ x y, String.leb (tag_name y) (tag_name x) = true) rows.
Proof.
  split; [vm_compute; reflexivity|].
  exact (proj1 (list_all_sorted_distinct Sample.db (Sample.as_alice [])
                  Sample.alice eq_refl eq_refl)).
Defined.

(** C2: with an [assigned_only] parameter whose integer value is not zero,
    the tag (ingredient) list query of user [u] returns exactly the tags
    (ingredients) of [u] that some recipe link points to, and none of them
    twice, however many recipes point to it. *)
Theorem assigned_only_exact_and_distinct db req u s n :
  user req = Some u →
  query_get "assigned_only" (query_params req) = Some s →
  Py.int s = Ok n →
  n ≠ 0 →
  (∃ rows, TagViewSet.get_queryset db req = Ok rows
     ∧ (∀ t, t ∈ rows ↔
             t ∈ tag_table db ∧ tag_user t = user_id u
             ∧ ∃ rid, (rid, tag_id t) ∈ recipe_tags db)
     ∧ NoDup rows)
  ∧ (∃ rows, IngredientViewSet.get_queryset db req = Ok rows
     ∧ (∀ i, i ∈ rows ↔
             i ∈ ingredient_table db ∧ ingredient_user i = user_id u
             ∧ ∃ rid, (rid, ingredient_id i) ∈ recipe_ingredients db)
     ∧ NoDup rows).
Proof.
  intros Hu Hq Hs Hn. split.
  - eexists. split.
    + unfold TagViewSet.get_queryset, BaseViewSet.get_queryset,
        BaseViewSet.assigned_only, user_key. rewrite Hq, Hs, Hu. simpl.
      rewrite bool_decide_eq_true_2 by done. reflexivity.
    + destruct (scoped_sorted_distinct (M := Tag) (user_id u)
                  (QuerySet.filter_recipe_isnull_false (recipe_tags db)
                     (tag_table db))) as (Hin & Hnd & _).
      split; [|exact Hnd]. intros t.
      etransitivity; [apply Hin|].
      rewrite elem_of_filter_recipe_isnull_false. simpl. tauto.
  - eexists. split.
    + unfold IngredientViewSet.get_queryset, BaseViewSet.get_queryset,
        BaseViewSet.assigned_only, user_key. rewrite Hq, Hs, Hu. simpl.
      rewrite bool_decide_eq_true_2 by done. reflexivity.
    + destruct (scoped_sorted_distinct (M := Ingredient) (user_id u)
                  (QuerySet.filter_recipe_isnull_false (recipe_ingredients db)
                     (ingredient_table db))) as (Hin & Hnd & _).
      split; [|exact Hnd]. intros i.
      etransitivity; [apply Hin|].
      rewrite elem_of_filter_recipe_isnull_false. simpl. tauto.
Qed.

Lemma assigned_only_exact_and_distinct_witness :
  TagViewSet.get_queryset Sample.db (Sample.as_alice [("assigned_only", "1")])
  = Ok [Sample.vegan; Sample.dessert]
  ∧ ∃ rows,
      TagViewSet.get_queryset Sample.db
        (Sample.as_alice [("assigned_only", "1")]) = Ok rows
      ∧ (∀ t, t ∈ rows ↔
              t ∈ tag_table Sample.db ∧ tag_user t = 1
              ∧ ∃ rid, (rid, tag_id t) ∈ recipe_tags Sample.db)
      ∧ NoDup rows.
Proof.
  split; [vm_compute; reflexivity|].
  refine (proj1 (assigned_only_exact_and_distinct Sample.db
                   (Sample.as_alice [("assigned_only", "1")]) Sample.alice
                   "1" 1 eq_refl eq_refl eq_refl _)).
  lia.
Defined.

(** ** Recipe filters: which recipes, and how often *)

Lemma params_to_ints_truthy s ids :
  RecipeViewSet._params_to_ints s = Ok ids → Py.truthy s = true.
Proof. destruct s; [discriminate|done]. Qed.

Lemma filter_param_given s ids links qs :
  RecipeViewSet._params_to_ints s = Ok ids →
  RecipeViewSet.filter_param (Some s) links qs
  = Ok (QuerySet.filter_link_id_in links ids qs).
Proof.
  intros Hs. unfold RecipeViewSet.filter_param.
  by rewrite (params_to_ints_truthy s ids Hs), Hs.
Qed.

Lemma occurrences_replicate {A} `{EqDecision A} (x y : A) (k : nat) :
  occurrences x (replicate k y) = if decide (y = x) then k else 0%nat.
Proof.
  unfold occurrences. induction k as [|k IH]; simpl.
  - by case_decide.
  - rewrite filter_cons. destruct (decide (y = x)); simpl; by rewrite IH.
Qed.

Lemma occurrences_join_absent {A} `{EqDecision A} (k : A → nat)
    (qs : list A) (x : A) :
  x ∉ qs → occurrences x (qs ≫= λ y, replicate (k y) y) = 0%nat.
Proof.
  unfold occurrences. induction qs as [|y qs IH]; intros Hx; [done|].
  apply not_elem_of_cons in Hx as [Hne Hx].
  rewrite bind_cons, filter_app, length_app, IH by done.
  fold (occurrences x (replicate (k y) y)). rewrite occurrences_replicate.
  by rewrite decide_False by done.
Qed.

(** In a join that repeats each row [y] of a duplicate-free table [k y]
    times, the row [x] occurs [k x] times. *)
Lemma occurrences_join {A} `{EqDecision A} (k : A → nat) (qs : list A)
    (x : A) :
  NoDup qs → x ∈ qs → occurrences x (qs ≫= λ y, replicate (k y) y) = k x.
Proof.
  induction qs as [|y qs IH]; intros Hnd Hx; [by apply elem_of_nil in Hx|].
  apply NoDup_cons in Hnd as [Hy Hnd]. unfold occurrences.
  rewrite bind_cons, filter_app, length_app.
  fold (occurrences x (replicate (k y) y)).
  fold (occurrences x (qs ≫= λ y, replicate (k y) y)).
  rewrite occurrences_replicate.
  apply elem_of_cons in Hx as [->|Hx].
  - rewrite decide_True by done. rewrite occurrences_join_absent by done. lia.
  - rewrite decide_False by (intros ->; done). by rewrite IH.
Qed.

Lemma occurrences_filter_user u (r : Recipe) qs :
  recipe_user r = u →
  occurrences r (QuerySet.filter_recipe_user u qs) = occurrences r qs.
Proof.
  intros Hu. unfold occurrences, QuerySet.filter_recipe_user.
  rewrite list_filter_filter. f_equal. apply list_filter_iff.
  intros x. split; [tauto|]. intros ->. done.
Qed.

(** C3: with a [tags] parameter that is a comma-separated list of ids
    (and no [ingredients] parameter), a recipe of user [u] is in the list
    query's result exactly when one of its tags has an id of the list;
    likewise for [ingredients]. *)
Theorem recipe_filter_any_of_ids db req u s ids :
  user req = Some u →
  RecipeViewSet._params_to_ints s = Ok ids →
  (query_get "tags" (query_params req) = Some s →
   query_get "ingredients" (query_params req) = None →
   ∃ rows, RecipeViewSet.get_queryset db req = Ok rows
     ∧ ∀ r, r ∈ recipe_table db → recipe_user r = user_id u →
         (r ∈ rows ↔ ∃ t, t ∈ ids ∧ (recipe_id r, t) ∈ recipe_tags db))
  ∧ (query_get "ingredients" (query_params req) = Some s →
     query_get "tags" (query_params req) = None →
     ∃ rows, RecipeViewSet.get_queryset db req = Ok rows
       ∧ ∀ r, r ∈ recipe_table db → recipe_user r = user_id u →
           (r ∈ rows ↔
            ∃ i, i ∈ ids ∧ (recipe_id r, i) ∈ recipe_ingredients db)).
Proof.
  intros Hu Hs. split; intros Hgiven Hother.
  - eexists. split.
    + unfold RecipeViewSet.get_queryset, user_key. cbv zeta.
      rewrite Hgiven, Hother, Hu, (filter_param_given s ids) by done.
      reflexivity.
    + intros r Hr Ho. unfold QuerySet.filter_recipe_user.
      rewrite list_elem_of_filter, elem_of_filter_link_id_in.
      unfold RecipeViewSet.queryset. tauto.
  - eexists. split.
    + unfold RecipeViewSet.get_queryset, user_key. cbv zeta.
      rewrite Hgiven, Hother, Hu.
      unfold RecipeViewSet.filter_param at 1. cbn [rbind].
      rewrite (filter_param_given s ids) by done. reflexivity.
    + intros r Hr Ho. unfold QuerySet.filter_recipe_user.
      rewrite list_elem_of_filter, elem_of_filter_link_id_in.
      unfold RecipeViewSet.queryset. tauto.
Qed.

Lemma recipe_filter_any_of_ids_witness :
  RecipeViewSet.get_queryset Sample.db (Sample.as_alice [("tags", "2,7")])
  = Ok [Sample.borsch]
  ∧ ∃ rows,
      RecipeViewSet.get_queryset Sample.db
        (Sample.as_alice [("tags", "2,7")]) = Ok rows
      ∧ ∀ r, r ∈ recipe_table Sample.db → recipe_user r = 1 →
          (r ∈ rows ↔
           ∃ t, t ∈ [2; 7] ∧ (recipe_id r, t) ∈ recipe_tags Sample.db).
Proof.
  split; [vm_compute; reflexivity|].
  exact (proj1 (recipe_filter_any_of_ids Sample.db
                  (Sample.as_alice [("tags", "2,7")]) Sample.alice
                  "2,7" [2; 7] eq_refl eq_refl) eq_refl eq_refl).
Defined.

(** C9: the filtered recipe list is not made distinct.  With a [tags]
    parameter (and no [ingredients] parameter), a recipe of user [u]
    occurs in the result once per link to a tag whose id is in the list;
    likewise for [ingredients].  The table itself holds no row twice. *)
Theorem recipe_filter_repeats_per_link db req u s ids r :
  user req = Some u →
  RecipeViewSet._params_to_ints s = Ok ids →
  NoDup (recipe_table db) →
  r ∈ recipe_table db →
  recipe_user r = user_id u →
  (query_get "tags" (query_params req) = Some s →
   query_get "ingredients" (query_params req) = None →
   ∃ rows, RecipeViewSet.get_queryset db req = Ok rows
     ∧ occurrences r rows
       = length (filter (λ l, l.1 = recipe_id r ∧ l.2 ∈ ids)
                   (recipe_tags db)))
  ∧ (query_get "ingredients" (query_params req) = Some s →
     query_get "tags" (query_params req) = None →
     ∃ rows, RecipeViewSet.get_queryset db req = Ok rows
       ∧ occurrences r rows
         = length (filter (λ l, l.1 = recipe_id r ∧ l.2 ∈ ids)
                     (recipe_ingredients db))).
Proof.
  intros Hu Hs Hnd Hr Ho. split; intros Hgiven Hother.
  - eexists. split.
    + unfold RecipeViewSet.get_queryset, user_key. cbv zeta.
      rewrite Hgiven, Hother, Hu, (filter_param_given s ids) by done.
      reflexivity.
    + rewrite occurrences_filter_user by done.
      unfold QuerySet.filter_link_id_in, RecipeViewSet.queryset.
      by rewrite (occurrences_join
        (λ r, length (filter (λ l : Z * Z, l.1 = recipe_id r ∧ l.2 ∈ ids)
                        (recipe_tags db)))).
  - eexists. split.
    + unfold RecipeViewSet.get_queryset, user_key. cbv zeta.
      rewrite Hgiven, Hother, Hu.
      unfold RecipeViewSet.filter_param at 1. cbn [rbind].
      rewrite (filter_param_given s ids) by done. reflexivity.
    + rewrite occurrences_filter_user by done.
      unfold QuerySet.filter_link_id_in, RecipeViewSet.queryset.
      by rewrite (occurrences_join
        (λ r, length (filter (λ l : Z * Z, l.1 = recipe_id r ∧ l.2 ∈ ids)
                        (recipe_ingredients db)))).
Qed.

Lemma recipe_filter_repeats_per_link_witness :
  RecipeViewSet.get_queryset Sample.db (Sample.as_alice [("tags", "1,2")])
  = Ok [Sample.borsch; Sample.borsch; Sample.risotto]
  ∧ ∃ rows,
      RecipeViewSet.get_queryset Sample.db
        (Sample.as_alice [("tags", "1,2")]) = Ok rows
      ∧ occurrences Sample.borsch rows = 2%nat.
Proof.
  split; [vm_compute; reflexivity|].
  refine (proj1 (recipe_filter_repeats_per_link Sample.db
                   (Sample.as_alice [("tags", "1,2")]) Sample.alice
                   "1,2" [1; 2] Sample.borsch eq_refl eq_refl _ _ eq_refl)
            eq_refl eq_refl).
  - apply (bool_decide_unpack _). vm_compute. exact I.
  - apply (bool_decide_unpack _). vm_compute. exact I.
Defined.

(** ** Authentication *)

(** C4: a request that does not authenticate gets 401 from every endpoint
    and action of the API, the list and create actions among them, and
    the database is left as it was; whatever handler stands behind the
    two permission settings is never run. *)
Theorem unauthenticated_request_is_401 svc e db req :
  (∀ u, perform_authentication [TokenAuthentication] db req ≠ Ok (Some u)) →
  api svc e db req
  = (Responded (mkResponse HTTP_401_UNAUTHORIZED Empty), db)
  ∧ ∀ handler,
      dispatch BaseViewSet.authentication_classes
        BaseViewSet.permission_classes handler db req
      = (Responded (mkResponse HTTP_401_UNAUTHORIZED Empty), db)
      ∧ dispatch RecipeViewSet.authentication_classes
          RecipeViewSet.permission_classes handler db req
        = (Responded (mkResponse HTTP_401_UNAUTHORIZED Empty), db).
Proof.
  intros Hno. split.
  - destruct e as [a|a|a]; by apply dispatch_unauthenticated.
  - intros handler. split; by apply dispatch_unauthenticated.
Qed.

Lemma unauthenticated_request_is_401_witness :
  api Sample.svc (Tags BaseViewSet.List) Sample.db Sample.anonymous
  = (Responded (mkResponse 401 Empty), Sample.db)
  ∧ api Sample.svc (Recipes RecipeViewSet.Create) Sample.db Sample.bad_token
    = (Responded (mkResponse 401 Empty), Sample.db).
Proof.
  split.
  - refine (proj1 (unauthenticated_request_is_401 Sample.svc
                     (Tags BaseViewSet.List) Sample.db Sample.anonymous _)).
    intros u. vm_compute. discriminate.
  - refine (proj1 (unauthenticated_request_is_401 Sample.svc
                     (Recipes RecipeViewSet.Create) Sample.db
                     Sample.bad_token _)).
    intros u. vm_compute. discriminate.
Defined.

(** ** Creating tags and ingredients *)

Lemma base_create_valid {M} `{OwnedModel M} db req u s :
  user req = Some u →
  data req !! "name" = Some (VStr s) →
  s ≠ "" →
  BaseViewSet.create (M := M) db req
  = let row := build (serializers.next_id (pk <$> objects db)) s (user_id u)
    in Ok (mkResponse HTTP_201_CREATED (One (serializers.owned_repr row)),
           with_objects (objects db ++ [row]) db).
Proof.
  intros Hu Hname Hs.
  unfold BaseViewSet.create, serializers.validate_name,
    BaseViewSet.perform_create, user_key.
  rewrite Hname, Hu. by rewrite decide_False by done.
Qed.

Lemma base_create_empty {M} `{OwnedModel M} db req :
  data req !! "name" = Some (VStr "") →
  BaseViewSet.create (M := M) db req = Raise (ValidationError ["name"]).
Proof.
  intros Hname. unfold BaseViewSet.create, serializers.validate_name.
  by rewrite Hname.
Qed.

(** C5: an authenticated create request on the tag or the ingredient
    endpoint with a non-empty name answers 201 and adds one row, whose
    name is the submitted one and whose owner is the requesting user,
    whatever else the payload holds; with an empty name it answers 400
    and the database is as before. *)
Theorem create_tag_or_ingredient db req u :
  perform_authentication BaseViewSet.authentication_classes db req
  = Ok (Some u) →
  (∀ s, data req !! "name" = Some (VStr s) → s ≠ "" →
     (∃ row,
        TagViewSet.view BaseViewSet.Create db req
        = (Responded (mkResponse HTTP_201_CREATED
                        (One (serializers.owned_repr row))),
           with_objects (tag_table db ++ [row]) db)
        ∧ tag_name row = s ∧ tag_user row = user_id u)
     ∧ (∃ row,
        IngredientViewSet.view BaseViewSet.Create db req
        = (Responded (mkResponse HTTP_201_CREATED
                        (One (serializers.owned_repr row))),
           with_objects (ingredient_table db ++ [row]) db)
        ∧ ingredient_name row = s ∧ ingredient_user row = user_id u))
  ∧ (data req !! "name" = Some (VStr "") →
     TagViewSet.view BaseViewSet.Create db req
     = (Responded (mkResponse HTTP_400_BAD_REQUEST (Errors ["name"])), db)
     ∧ IngredientViewSet.view BaseViewSet.Create db req
       = (Responded (mkResponse HTTP_400_BAD_REQUEST (Errors ["name"])), db)).
Proof.
  intros Hauth. split.
  - intros s Hname Hs. split.
    + eexists. split.
      * unfold TagViewSet.view, BaseViewSet.view.
        rewrite (dispatch_authenticated _ _ _ _ u) by done.
        unfold BaseViewSet.handler.
        rewrite (base_create_valid (M := Tag) db _ u s) by done.
        reflexivity.
      * done.
    + eexists. split.
      * unfold IngredientViewSet.view, BaseViewSet.view.
        rewrite (dispatch_authenticated _ _ _ _ u) by done.
        unfold BaseViewSet.handler.
        rewrite (base_create_valid (M := Ingredient) db _ u s) by done.
        reflexivity.
      * done.
  - intros Hname. split.
    + unfold TagViewSet.view, BaseViewSet.view.
      rewrite (dispatch_authenticated _ _ _ _ u) by done.
      unfold BaseViewSet.handler.
      by rewrite (base_create_empty (M := Tag)) by done.
    + unfold IngredientViewSet.view, BaseViewSet.view.
      rewrite (dispatch_authenticated _ _ _ _ u) by done.
      unfold BaseViewSet.handler.
      by rewrite (base_create_empty (M := Ingredient)) by done.
Qed.

Lemma create_tag_or_ingredient_witness :
  fst (TagViewSet.view BaseViewSet.Create Sample.db
         (Sample.from_alice []
            {[ "name" := VStr "Quick"; "user" := VInt 2 ]}))
  = Responded (mkResponse 201 (One [("id", VInt 5); ("name", VStr "Quick")]))
  ∧ ∃ row,
      TagViewSet.view BaseViewSet.Create Sample.db
        (Sample.from_alice []
           {[ "name" := VStr "Quick"; "user" := VInt 2 ]})
      = (Responded (mkResponse HTTP_201_CREATED
                      (One (serializers.owned_repr row))),
         with_objects (tag_table Sample.db ++ [row]) Sample.db)
      ∧ tag_name row = "Quick" ∧ tag_user row = 1.
Proof.
  split; [vm_compute; reflexivity|].
  refine (proj1 (proj1 (create_tag_or_ingredient Sample.db
                          (Sample.from_alice []
                             {[ "name" := VStr "Quick"; "user" := VInt 2 ]})
                          Sample.alice eq_refl) "Quick" _ _)).
  - vm_compute. reflexivity.
  - discriminate.
Defined.

(** ** Malformed query parameters *)

Example params_to_ints_word :
  RecipeViewSet._params_to_ints "a,2" = Raise ValueError.
Proof. reflexivity. Qed.

Example params_to_ints_trailing_comma :
  RecipeViewSet._params_to_ints "1," = Raise ValueError.
Proof. reflexivity. Qed.

(** C10: parameter parsing is partial.  [int] raises [ValueError] on
    [true] and [_params_to_ints] on [a,2]; and whenever [assigned_only]
    (or [tags], or [ingredients]) holds such text, the list request of an
    authenticated user ends in an unhandled [ValueError], not in a 400
    response. *)
Theorem malformed_parameter_is_unhandled svc db req u :
  perform_authentication [TokenAuthentication] db req = Ok (Some u) →
  Py.int "true" = Raise ValueError
  ∧ RecipeViewSet._params_to_ints "a,2" = Raise ValueError
  ∧ (∀ s, query_get "assigned_only" (query_params req) = Some s →
          Py.int s = Raise ValueError →
          TagViewSet.get_queryset db (set_user req (Some u))
          = Raise ValueError
          ∧ api svc (Tags BaseViewSet.List) db req
            = (Unhandled ValueError, db)
          ∧ api svc (Ingredients BaseViewSet.List) db req
            = (Unhandled ValueError, db))
  ∧ (∀ s, query_get "tags" (query_params req) = Some s →
          RecipeViewSet._params_to_ints s = Raise ValueError →
          Py.truthy s = true →
          RecipeViewSet.get_queryset db (set_user req (Some u))
          = Raise ValueError
          ∧ api svc (Recipes RecipeViewSet.List) db req
            = (Unhandled ValueError, db))
  ∧ (∀ s, query_get "ingredients" (query_params req) = Some s →
          RecipeViewSet._params_to_ints s = Raise ValueError →
          Py.truthy s = true →
          query_get "tags" (query_params req) = None →
          RecipeViewSet.get_queryset db (set_user req (Some u))
          = Raise ValueError
          ∧ api svc (Recipes RecipeViewSet.List) db req
            = (Unhandled ValueError, db)).
Proof.
  intros Hauth. split_and!; try reflexivity.
  - intros s Hq Hs.
    assert (∀ M (H : OwnedModel M),
              BaseViewSet.get_queryset (M := M) db (set_user req (Some u))
              = Raise ValueError) as Hraise.
    { intros M H. unfold BaseViewSet.get_queryset, BaseViewSet.assigned_only.
      simpl. by rewrite Hq, Hs. }
    split_and!; [apply Hraise|..]; simpl;
      unfold TagViewSet.view, IngredientViewSet.view, BaseViewSet.view;
      rewrite (dispatch_authenticated _ _ _ _ u) by done;
      unfold BaseViewSet.handler, BaseViewSet.list_action;
      by rewrite Hraise.
  - intros s Hq Hs Ht.
    assert (RecipeViewSet.get_queryset db (set_user req (Some u))
            = Raise ValueError) as Hraise.
    { unfold RecipeViewSet.get_queryset, RecipeViewSet.filter_param.
      simpl. by rewrite Hq, Ht, Hs. }
    split; [done|]. simpl. unfold RecipeViewSet.view.
    rewrite (dispatch_authenticated _ _ _ _ u) by done.
    unfold RecipeViewSet.handler, RecipeViewSet.list_action.
    by rewrite Hraise.
  - intros s Hq Hs Ht Hnone.
    assert (RecipeViewSet.get_queryset db (set_user req (Some u))
            = Raise ValueError) as Hraise.
    { unfold RecipeViewSet.get_queryset, RecipeViewSet.filter_param.
      simpl. by rewrite Hq, Hnone, Ht, Hs. }
    split; [done|]. simpl. unfold RecipeViewSet.view.
    rewrite (dispatch_authenticated _ _ _ _ u) by done.
    unfold RecipeViewSet.handler, RecipeViewSet.list_action.
    by rewrite Hraise.
Qed.

Lemma malformed_parameter_is_unhandled_witness :
  api Sample.svc (Tags BaseViewSet.List) Sample.db
    (Sample.from_alice [("assigned_only", "true")] ∅)
  = (Unhandled ValueError, Sample.db)
  ∧ api Sample.svc (Recipes RecipeViewSet.List) Sample.db
      (Sample.from_alice [("tags", "a,2")] ∅)
    = (Unhandled ValueError, Sample.db).
Proof.
  split.
  - exact (proj1 (proj2 (proj1 (proj2 (proj2
      (malformed_parameter_is_unhandled Sample.svc Sample.db
         (Sample.from_alice [("assigned_only", "true")] ∅) Sample.alice
         eq_refl))) "true" eq_refl eq_refl))).
  - exact (proj2 (proj1 (proj2 (proj2 (proj2
      (malformed_parameter_is_unhandled Sample.svc Sample.db
         (Sample.from_alice [("tags", "a,2")] ∅) Sample.alice
         eq_refl)))) "a,2" eq_refl eq_refl eq_refl)).
Defined.

(** ** Looking up one recipe *)

Lemma queryset_get_Ok i qs r :
  QuerySet.get i qs = Ok r → r ∈ qs ∧ recipe_id r = i.
Proof.
  unfold QuerySet.get.
  destruct (filter (λ r, recipe_id r = i) qs) as [|r0 [|??]] eqn:Hf;
    try discriminate.
  intros [= <-].
  assert (r0 ∈ filter (λ r, recipe_id r = i) qs) as Hin by (rewrite Hf; left).
  apply list_elem_of_filter in Hin. tauto.
Qed.

(** The recipe that [get_object] hands to an action is a row of the
    table, has the primary key of the URL, and belongs to the caller. *)
Lemma get_object_Ok db req u pk r :
  user req = Some u →
  RecipeViewSet.get_object db req pk = Ok r →
  r ∈ recipe_table db ∧ recipe_id r = pk ∧ recipe_user r = user_id u.
Proof.
  intros Hu. unfold RecipeViewSet.get_object.
  destruct (RecipeViewSet.get_queryset db req) as [rows|] eqn:Hq; simpl;
    [|discriminate].
  intros [Hin Hid]%queryset_get_Ok.
  destruct (recipe_get_queryset_scoped db req u rows Hu Hq r Hin). done.
Qed.

Lemma filter_unique_key {A} (key : A → Z) (l : list A) (x : A) :
  NoDup (key <$> l) → x ∈ l → filter (λ y, key y = key x) l = [x].
Proof.
  induction l as [|y l IH]; intros Hnd Hx; [by apply elem_of_nil in Hx|].
  rewrite fmap_cons in Hnd. apply NoDup_cons in Hnd as [Hy Hnd].
  rewrite filter_cons. apply elem_of_cons in Hx as [->|Hx].
  - rewrite decide_True by done. f_equal.
    apply (nothing_owned_nil _ (λ z, z ∈ l ∧ key z = key y)).
    + intros z Hz. apply list_elem_of_filter in Hz. tauto.
    + intros z [Hz Hk]. apply Hy. rewrite <- Hk.
      by apply list_elem_of_fmap_2.
  - rewrite decide_False; [by apply IH|].
    intros Hk. apply Hy. rewrite Hk. by apply list_elem_of_fmap_2.
Qed.

Lemma filter_swap {A} (P Q : A → Prop) `{∀ x, Decision (P x)}
    `{∀ x, Decision (Q x)} (l : list A) :
  filter P (filter Q l) = filter Q (filter P l).
Proof. rewrite !list_filter_filter. apply list_filter_iff. tauto. Qed.

(** Without [tags] and [ingredients] parameters, every recipe of the
    caller is found under its primary key. *)
Lemma get_object_owned db req u r :
  user req = Some u →
  query_get "tags" (query_params req) = None →
  query_get "ingredients" (query_params req) = None →
  NoDup (recipe_id <$> recipe_table db) →
  r ∈ recipe_table db →
  recipe_user r = user_id u →
  RecipeViewSet.get_object db req (recipe_id r) = Ok r.
Proof.
  intros Hu Ht Hi Hnd Hr Ho.
  unfold RecipeViewSet.get_object, RecipeViewSet.get_queryset, user_key.
  cbv zeta. rewrite Ht, Hi, Hu. simpl.
  unfold QuerySet.get, QuerySet.filter_recipe_user, RecipeViewSet.queryset.
  rewrite filter_swap, (filter_unique_key recipe_id) by done.
  rewrite filter_cons, decide_True by done. reflexivity.
Qed.

(** ** Image upload *)





(** ** Ownership of recipes *)

Lemma initial_Ok auths db req req' :
  initial auths [IsAuthenticated] db req = Ok req' →
  ∃ u, perform_authentication auths db req = Ok (Some u)
       ∧ req' = set_user req (Some u).
Proof.
  unfold initial.
  destruct (perform_authentication auths db req) as [[u|]|] eqn:Hp; simpl.
  - intros [= <-]. by exists u.
  - destruct auths; discriminate.
  - discriminate.
Qed.

Lemma next_id_fresh ids i : i ∈ ids → i < serializers.next_id ids.
Proof.
  unfold serializers.next_id. induction ids as [|j ids IH]; intros Hi.
  - by apply elem_of_nil in Hi.
  - simpl. apply elem_of_cons in Hi as [->|Hi]; [lia|].
    specialize (IH Hi). lia.
Qed.

Lemma base_handler_keeps_recipes_tag a db req resp db' :
  BaseViewSet.handler (M := Tag) a db req = Ok (resp, db') →
  recipe_table db' = recipe_table db.
Proof.
  destruct a; simpl;
    unfold BaseViewSet.list_action, BaseViewSet.create,
      BaseViewSet.perform_create, user_key.
  - destruct (BaseViewSet.get_queryset db req); simpl; [|discriminate].
    by intros [= _ <-].
  - destruct (serializers.validate_name (data req)); simpl; [|discriminate].
    destruct (user req); simpl; [|discriminate].
    by intros [= _ <-].
Qed.

Lemma base_handler_keeps_recipes_ingredient a db req resp db' :
  BaseViewSet.handler (M := Ingredient) a db req = Ok (resp, db') →
  recipe_table db' = recipe_table db.
Proof.
  destruct a; simpl;
    unfold BaseViewSet.list_action, BaseViewSet.create,
      BaseViewSet.perform_create, user_key.
  - destruct (BaseViewSet.get_queryset db req); simpl; [|discriminate].
    by intros [= _ <-].
  - destruct (serializers.validate_name (data req)); simpl; [|discriminate].
    destruct (user req); simpl; [|discriminate].
    by intros [= _ <-].
Qed.

Lemma assign_keeps_owner svc v r :
  recipe_id (serializers.assign svc v r) = recipe_id r
  ∧ recipe_user (serializers.assign svc v r) = recipe_user r.
Proof. done. Qed.



Lemma same_key_same_row {A} (key : A → Z) (l : list A) (x y : A) :
  NoDup (key <$> l) → x ∈ l → y ∈ l → key x = key y → x = y.
Proof.
  intros Hnd Hx Hy Hk.
  assert (y ∈ filter (λ z, key z = key x) l) as Hin
    by by apply list_elem_of_filter.
  rewrite (filter_unique_key key) in Hin by done.
  by apply list_elem_of_singleton in Hin.
Qed.



(** ** The list responses *)

(** The list actions answer 200 with the serialized rows of
    [get_queryset], so what holds of the query's rows holds of the
    records in the response. *)
Lemma owned_list_response {M} `{OwnedModel M} db req u (rows : list M) :
  perform_authentication BaseViewSet.authentication_classes db req
  = Ok (Some u) →
  BaseViewSet.get_queryset db (set_user req (Some u)) = Ok rows →
  BaseViewSet.view (M := M) BaseViewSet.List db req
  = (Responded (mkResponse HTTP_200_OK
                  (Many (serializers.owned_repr <$> rows))), db).
Proof.
  intros Hauth Hq. unfold BaseViewSet.view.
  rewrite (dispatch_authenticated _ _ _ _ u) by done.
  unfold BaseViewSet.handler, BaseViewSet.list_action. by rewrite Hq.
Qed.

Lemma recipe_list_response svc db req u rows :
  perform_authentication RecipeViewSet.authentication_classes db req
  = Ok (Some u) →
  RecipeViewSet.get_queryset db (set_user req (Some u)) = Ok rows →
  RecipeViewSet.view svc RecipeViewSet.List db req
  = (Responded (mkResponse HTTP_200_OK
                  (Many (serializers.recipe_repr serializers.RecipeSerializer
                           db <$> rows))), db).
Proof.
  intros Hauth Hq. unfold RecipeViewSet.view.
  rewrite (dispatch_authenticated _ _ _ _ u) by done.
  unfold RecipeViewSet.handler, RecipeViewSet.list_action. by rewrite Hq.
Qed.

(** With both [tags] and [ingredients] given, a recipe must match both. *)
Lemma recipe_filter_both db req u st si tags ings :
  user req = Some u →
  query_get "tags" (query_params req) = Some st →
  query_get "ingredients" (query_params req) = Some si →
  RecipeViewSet._params_to_ints st = Ok tags →
  RecipeViewSet._params_to_ints si = Ok ings →
  ∃ rows, RecipeViewSet.get_queryset db req = Ok rows
    ∧ ∀ r, r ∈ rows ↔
        r ∈ recipe_table db ∧ recipe_user r = user_id u
        ∧ (∃ t, t ∈ tags ∧ (recipe_id r, t) ∈ recipe_tags db)
        ∧ (∃ i, i ∈ ings ∧ (recipe_id r, i) ∈ recipe_ingredients db).
Proof.
  intros Hu Ht Hi Hst Hsi. eexists. split.
  - unfold RecipeViewSet.get_queryset, user_key. cbv zeta.
    rewrite Ht, Hi, Hu, (filter_param_given st tags) by done.
    cbn [rbind]. rewrite (filter_param_given si ings) by done. reflexivity.
  - intros r. unfold QuerySet.filter_recipe_user, RecipeViewSet.queryset.
    rewrite list_elem_of_filter, !elem_of_filter_link_id_in. tauto.
Qed.

(** The two permission settings differ from an open endpoint: with
    [AllowAny] the same anonymous request would reach the handler. *)
Example open_endpoint_runs_handler :
  dispatch [TokenAuthentication] [AllowAny]
    (λ db _, Ok (mkResponse HTTP_200_OK Empty, db)) Sample.db Sample.anonymous
  = (Responded (mkResponse HTTP_200_OK Empty), Sample.db).
Proof. reflexivity. Qed.

(** A caller who owns no recipe gets an empty list with status 200, also
    when the filter names tags that other tenants use. *)
Lemma recipe_list_of_other_tenants_is_empty svc db req u rows :
  perform_authentication RecipeViewSet.authentication_classes db req
  = Ok (Some u) →
  RecipeViewSet.get_queryset db (set_user req (Some u)) = Ok rows →
  (∀ r, r ∈ recipe_table db → recipe_user r ≠ user_id u) →
  RecipeViewSet.view svc RecipeViewSet.List db req
  = (Responded (mkResponse HTTP_200_OK (Many [])), db).
Proof.
  intros Hauth Hq Hnone.
  assert (rows = []) as ->.
  { apply (nothing_owned_nil rows (λ _, False)); [|done].
    intros r Hr.
    destruct (recipe_get_queryset_scoped db (set_user req (Some u)) u rows
                eq_refl Hq r Hr) as [Hin Ho].
    by apply (Hnone r). }
  by rewrite (recipe_list_response svc db req u []).
Qed.

(** * Further properties of the views *)

(** ** Formatting and parsing id lists *)

Lemma digits_of_uint_acc (d : Decimal.uint) (acc : positive) :
  Py.digits (Z.pos acc) true
    (list_ascii_of_string (DecimalString.NilEmpty.string_of_uint d))
  = Some (Z.pos (Pos.of_uint_acc d acc)).
Proof.
  revert acc.
  induction d as [|d IH|d IH|d IH|d IH|d IH|d IH|d IH|d IH|d IH|d IH];
    intros acc; [reflexivity|..];
    cbn [DecimalString.NilEmpty.string_of_uint list_ascii_of_string
         Py.digits Pos.of_uint_acc];
    match goal with
    | |- context [Py.digit_of ?c] =>
        let v := eval vm_compute in (Py.digit_of c) in
        change (Py.digit_of c) with v
    end; cbv iota; rewrite <- IH; f_equal; lia.
Qed.

Lemma digits_of_uint (d : Decimal.uint) (seen : bool) :
  Py.digits 0 seen
    (list_ascii_of_string (DecimalString.NilEmpty.string_of_uint d))
  = match d with
    | Decimal.Nil => if seen then Some 0 else None
    | _ => Some (Z.of_N (Pos.of_uint d))
    end.
Proof.
  revert seen.
  induction d as [|d IH|d IH|d IH|d IH|d IH|d IH|d IH|d IH|d IH|d IH];
    intros seen; [reflexivity|..].
  1: { cbn [DecimalString.NilEmpty.string_of_uint list_ascii_of_string
            Py.digits Pos.of_uint].
       change (Py.digit_of "0") with (Some 0). cbv iota.
       change (0 * 10 + 0) with 0. rewrite (IH true).
       by destruct d. }
  all: cbn [DecimalString.NilEmpty.string_of_uint list_ascii_of_string
            Py.digits Pos.of_uint];
    match goal with
    | |- context [Py.digit_of ?c] =>
        let v := eval vm_compute in (Py.digit_of c) in
        change (Py.digit_of c) with v
    end; cbv iota;
    match goal with
    | |- Py.digits ?a true _ = _ =>
        let v := eval vm_compute in a in change a with v
    end; apply digits_of_uint_acc.
Qed.

Lemma strip_no_space (l : list ascii) :
  Forall (λ c, Py.is_space c = false) l → Py.strip l = l.
Proof.
  assert (∀ k, Forall (λ c, Py.is_space c = false) k → Py.lstrip k = k)
    as Hl.
  { intros [|c k] Hk; [done|]. apply Forall_cons in Hk as [Hc _].
    simpl. by rewrite Hc. }
  intros Hall. unfold Py.strip. rewrite (Hl l Hall).
  rewrite Hl; [apply rev_involutive|].
  rewrite Forall_forall in Hall |- *. intros c Hc. apply Hall.
  apply list_elem_of_In. apply in_rev. by apply list_elem_of_In.
Qed.

Lemma string_of_uint_chars (d : Decimal.uint) :
  Forall (λ c, Py.is_space c = false ∧ c ≠ ","%char
               ∧ is_Some (Py.digit_of c))
    (list_ascii_of_string (DecimalString.NilEmpty.string_of_uint d)).
Proof.
  induction d; simpl; constructor; try done;
    (split_and!; [reflexivity|discriminate|by vm_compute; eexists]).
Qed.

(** Parsing undoes printing, leading zeros and a signed zero included. *)
Lemma int_of_printed (d : Decimal.int) :
  Py.int (DecimalString.NilZero.string_of_int d) = Ok (Z.of_int d).
Proof.
  assert (∀ u, u ≠ Decimal.Nil →
            ∃ c rest,
              list_ascii_of_string (DecimalString.NilEmpty.string_of_uint u)
              = c :: rest
              ∧ Ascii.eqb c "-" = false ∧ Ascii.eqb c "+" = false) as Hhead.
  { intros [| | | | | | | | | |] Hu; try done; simpl; by eexists _, _. }
  assert (∀ u, Forall (λ c, Py.is_space c = false)
                 (list_ascii_of_string
                    (DecimalString.NilEmpty.string_of_uint u))) as Hsp.
  { intros u. eapply Forall_impl; [apply string_of_uint_chars|].
    by intros c (? & _). }
  destruct d as [u|u];
    (assert (u = Decimal.Nil ∨ u ≠ Decimal.Nil) as [->|Hu]
       by (destruct u; auto));
    try reflexivity.
  - replace (DecimalString.NilZero.string_of_int (Decimal.Pos u))
      with (DecimalString.NilEmpty.string_of_uint u) by by destruct u.
    unfold Py.int. rewrite strip_no_space by apply Hsp.
    destruct (Hhead u Hu) as (c & rest & Hc & Hm & Hp).
    pose proof (digits_of_uint u false) as Hd. rewrite Hc in Hd |- *.
    rewrite Hm, Hp, Hd. by destruct u.
  - replace (DecimalString.NilZero.string_of_int (Decimal.Neg u))
      with (String "-" (DecimalString.NilEmpty.string_of_uint u))
      by by destruct u.
    unfold Py.int.
    rewrite strip_no_space by (simpl; constructor; [done|apply Hsp]).
    cbn [list_ascii_of_string]. change (Ascii.eqb "-" "-") with true.
    cbv iota. rewrite (digits_of_uint u false). by destruct u.
Qed.

Lemma int_str (n : Z) : Py.int (Py.str n) = Ok n.
Proof. unfold Py.str. by rewrite int_of_printed, DecimalZ.of_to. Qed.

Lemma str_has_no_comma (n : Z) :
  Forall (λ c, c ≠ ","%char) (list_ascii_of_string (Py.str n)).
Proof.
  assert (∀ u, Forall (λ c, c ≠ ","%char)
                 (list_ascii_of_string
                    (DecimalString.NilZero.string_of_uint u))) as Hu.
  { intros u.
    assert (u = Decimal.Nil ∨ u ≠ Decimal.Nil) as [->|Hne]
      by (destruct u; auto).
    - simpl. by repeat constructor.
    - replace (DecimalString.NilZero.string_of_uint u)
        with (DecimalString.NilEmpty.string_of_uint u) by by destruct u.
      eapply Forall_impl; [apply string_of_uint_chars|]. by intros c (_ & ? & _). }
  unfold Py.str. destruct (Z.to_int n) as [u|u]; simpl; [apply Hu|].
  constructor; [done|apply Hu].
Qed.

Lemma split_nonempty sep s : Py.split sep s ≠ [].
Proof. destruct s as [|c s]; simpl; [done|]. by repeat case_match. Qed.

(** Fields on the two sides of a separator are split independently. *)
Lemma split_app sep a b :
  Py.split sep (a ++ String sep b) = (Py.split sep a ++ Py.split sep b)%list.
Proof.
  induction a as [|c a IH]; simpl.
  - by rewrite Ascii.eqb_refl.
  - destruct (Ascii.eqb c sep); [by rewrite IH|].
    rewrite IH. pose proof (split_nonempty sep a).
    by destruct (Py.split sep a).
Qed.

Lemma split_no_sep sep s :
  Forall (λ c, c ≠ sep) (list_ascii_of_string s) → Py.split sep s = [s].
Proof.
  induction s as [|c s IH]; simpl; [done|].
  intros [Hc Hs]%Forall_cons.
  apply Ascii.eqb_neq in Hc. rewrite Hc, IH by done. done.
Qed.

Lemma split_join parts :
  parts ≠ [] →
  Forall (λ p, Forall (λ c, c ≠ ","%char) (list_ascii_of_string p)) parts →
  Py.split "," (Py.join "," parts) = parts.
Proof.
  induction parts as [|p [|q rest] IH]; intros Hne Hall; [done|..].
  - simpl. apply split_no_sep. by apply Forall_cons in Hall as [? _].
  - apply Forall_cons in Hall as [Hp Hrest].
    change (Py.join "," (p :: q :: rest))
      with (p ++ String "," (Py.join "," (q :: rest))).
    rewrite split_app, split_no_sep, IH by done. done.
Qed.

Lemma rmap_int_str ids : rmap Py.int (Py.str <$> ids) = Ok ids.
Proof.
  induction ids as [|i ids IH]; [done|].
  cbn [fmap list_fmap rmap]. fold (fmap Py.str ids).
  by rewrite int_str, IH.
Qed.

(** X1: the id list that a client formats as the tests do, the decimal
    numbers joined with commas, is parsed back to the same ids, in the same
    order; negative ids included. *)
Theorem params_to_ints_of_formatted_ids (ids : list Z) :
  ids ≠ [] →
  RecipeViewSet._params_to_ints (Py.join "," (Py.str <$> ids)) = Ok ids.
Proof.
  intros Hne. unfold RecipeViewSet._params_to_ints.
  rewrite split_join.
  - apply rmap_int_str.
  - by destruct ids.
  - apply Forall_fmap, Forall_forall. intros n _. apply str_has_no_comma.
Qed.

Lemma params_to_ints_of_formatted_ids_witness :
  Py.join "," (Py.str <$> [12; 7; -3]) = "12,7,-3"
  ∧ RecipeViewSet._params_to_ints (Py.join "," (Py.str <$> [12; 7; -3]))
    = Ok [12; 7; -3].
Proof.
  split; [vm_compute; reflexivity|].
  apply (params_to_ints_of_formatted_ids [12; 7; -3]). discriminate.
Defined.

Lemma rmap_length {A B} (f : A → result B) xs ys :
  rmap f xs = Ok ys → length ys = length xs.
Proof.
  revert ys. induction xs as [|x xs IH]; intros ys; simpl.
  - by intros [= <-].
  - destruct (f x); simpl; [|discriminate].
    destruct (rmap f xs) as [zs|]; simpl; [|discriminate].
    intros [= <-]. simpl. by rewrite (IH zs).
Qed.

Lemma split_length sep s : length (Py.split sep s) = S (Py.count sep s).
Proof.
  induction s as [|c s IH]; simpl; [done|].
  destruct (Ascii.eqb c sep); simpl; [by rewrite IH|].
  pose proof (split_nonempty sep s).
  destruct (Py.split sep s); [done|]. simpl in *. lia.
Qed.

(** X2: when [_params_to_ints] returns, it returns one id per
    comma-separated field: one more than the text has commas, so never the
    empty list. *)
Theorem params_to_ints_one_id_per_field s ids :
  RecipeViewSet._params_to_ints s = Ok ids →
  length ids = S (Py.count "," s) ∧ ids ≠ [].
Proof.
  intros Hs. apply rmap_length in Hs. rewrite split_length in Hs.
  split; [done|]. by destruct ids.
Qed.

Lemma params_to_ints_one_id_per_field_witness :
  RecipeViewSet._params_to_ints "4, 5,6" = Ok [4; 5; 6]
  ∧ length [4; 5; 6] = S (Py.count "," "4, 5,6").
Proof.
  split; [reflexivity|].
  exact (proj1 (params_to_ints_one_id_per_field "4, 5,6" [4; 5; 6] eq_refl)).
Defined.

Lemma rmap_int_empty_field xs :
  "" ∈ xs → rmap Py.int xs = Raise ValueError.
Proof.
  induction xs as [|x xs IH]; intros Hin; [by apply elem_of_nil in Hin|].
  simpl. destruct (Py.int x) as [n|e] eqn:Hx; simpl.
  - apply elem_of_cons in Hin as [<-|Hin]; [discriminate|].
    by rewrite IH.
  - by rewrite (int_raises_only_ValueError x e).
Qed.

(** X3: an empty field makes [_params_to_ints] raise [ValueError]: a
    trailing comma, a leading comma and two commas in a row, whatever text
    stands around them. *)
Theorem params_to_ints_empty_field_raises (a b : string) :
  RecipeViewSet._params_to_ints (a ++ ",") = Raise ValueError
  ∧ RecipeViewSet._params_to_ints ("," ++ b) = Raise ValueError
  ∧ RecipeViewSet._params_to_ints (a ++ ",," ++ b) = Raise ValueError.
Proof.
  unfold RecipeViewSet._params_to_ints. split_and!;
    apply rmap_int_empty_field.
  - rewrite split_app. apply elem_of_app. right. simpl. left.
  - simpl. left.
  - change (",," ++ b) with (String "," (String "," b)).
    rewrite split_app. apply elem_of_app. right. simpl. left.
Qed.

(** ** Edge cases of the recipe filters *)

(** X4: an empty [tags] (or [ingredients]) value is skipped by the guard
    [if tags:] and never parsed: the query gives what it gives without the
    parameter, although [_params_to_ints] raises on the empty text. *)
Theorem empty_filter_value_is_skipped db req1 req2 :
  user req1 = user req2 →
  RecipeViewSet._params_to_ints "" = Raise ValueError
  ∧ (query_get "tags" (query_params req1) = Some "" →
     query_get "tags" (query_params req2) = None →
     query_get "ingredients" (query_params req1)
     = query_get "ingredients" (query_params req2) →
     RecipeViewSet.get_queryset db req1 = RecipeViewSet.get_queryset db req2)
  ∧ (query_get "ingredients" (query_params req1) = Some "" →
     query_get "ingredients" (query_params req2) = None →
     query_get "tags" (query_params req1)
     = query_get "tags" (query_params req2) →
     RecipeViewSet.get_queryset db req1 = RecipeViewSet.get_queryset db req2).
Proof.
  intros Hu. split_and!; [reflexivity|..]; intros H1 H2 H3;
    unfold RecipeViewSet.get_queryset, user_key; cbv zeta;
    by rewrite H1, H2, H3, Hu.
Qed.

Lemma empty_filter_value_is_skipped_witness :
  RecipeViewSet.get_queryset Sample.db (Sample.as_alice [("tags", "")])
  = RecipeViewSet.get_queryset Sample.db (Sample.as_alice []).
Proof.
  exact (proj1 (proj2 (empty_filter_value_is_skipped Sample.db
                         (Sample.as_alice [("tags", "")]) (Sample.as_alice [])
                         eq_refl)) eq_refl eq_refl eq_refl).
Defined.

Lemma occurrences_cons {A} `{EqDecision A} (x y : A) (l : list A) :
  occurrences x (y :: l)
  = ((if decide (y = x) then 1 else 0) + occurrences x l)%nat.
Proof. unfold occurrences. rewrite filter_cons. by case_decide. Qed.

(** A join multiplies: each copy of [x] is repeated [k x] times. *)
Lemma occurrences_bind_replicate {A} `{EqDecision A} (k : A → nat)
    (qs : list A) (x : A) :
  occurrences x (qs ≫= λ y, replicate (k y) y)
  = (occurrences x qs * k x)%nat.
Proof.
  induction qs as [|y qs IH]; [done|].
  rewrite bind_cons, occurrences_cons. unfold occurrences at 1.
  rewrite filter_app, length_app.
  fold (occurrences x (replicate (k y) y)).
  fold (occurrences x (qs ≫= λ y, replicate (k y) y)).
  rewrite occurrences_replicate, IH.
  destruct (decide (y = x)) as [->|]; lia.
Qed.

Lemma occurrences_NoDup {A} `{EqDecision A} (l : list A) (x : A) :
  NoDup l → x ∈ l → occurrences x l = 1%nat.
Proof.
  induction l as [|y l IH]; intros Hnd Hx; [by apply elem_of_nil in Hx|].
  apply NoDup_cons in Hnd as [Hy Hnd]. rewrite occurrences_cons.
  apply elem_of_cons in Hx as [->|Hx].
  - rewrite decide_True by done.
    assert (occurrences y l = 0%nat) as ->; [|done].
    unfold occurrences.
    destruct (filter (λ z, z = y) l) as [|z ?] eqn:Hf; [done|].
    assert (z ∈ filter (λ z, z = y) l) as Hz by (rewrite Hf; left).
    apply list_elem_of_filter in Hz as [-> Hz]. done.
  - rewrite decide_False by (intros ->; done). by rewrite IH.
Qed.

(** X5: with both [tags] and [ingredients] given, a recipe of the caller
    is listed only when it matches both, and it is then repeated once per
    pair of a matching tag link and a matching ingredient link. *)
Theorem two_filters_conjoin_and_multiply db req u st si tags ings r :
  user req = Some u →
  query_get "tags" (query_params req) = Some st →
  query_get "ingredients" (query_params req) = Some si →
  RecipeViewSet._params_to_ints st = Ok tags →
  RecipeViewSet._params_to_ints si = Ok ings →
  NoDup (recipe_table db) →
  r ∈ recipe_table db →
  recipe_user r = user_id u →
  ∃ rows, RecipeViewSet.get_queryset db req = Ok rows
    ∧ occurrences r rows
      = (length (filter (λ l, l.1 = recipe_id r ∧ l.2 ∈ tags)
                   (recipe_tags db))
         * length (filter (λ l, l.1 = recipe_id r ∧ l.2 ∈ ings)
                     (recipe_ingredients db)))%nat
    ∧ (r ∈ rows ↔
       (∃ t, t ∈ tags ∧ (recipe_id r, t) ∈ recipe_tags db)
       ∧ (∃ i, i ∈ ings ∧ (recipe_id r, i) ∈ recipe_ingredients db)).
Proof.
  intros Hu Ht Hi Hst Hsi Hnd Hr Ho. eexists. split_and!.
  - unfold RecipeViewSet.get_queryset, user_key. cbv zeta.
    rewrite Ht, Hi, Hu, (filter_param_given st tags) by done.
    cbn [rbind]. rewrite (filter_param_given si ings) by done. reflexivity.
  - rewrite occurrences_filter_user by done.
    unfold QuerySet.filter_link_id_in, RecipeViewSet.queryset.
    rewrite (occurrences_bind_replicate
      (λ r, length (filter (λ l : Z * Z, l.1 = recipe_id r ∧ l.2 ∈ ings)
                      (recipe_ingredients db)))).
    rewrite (occurrences_bind_replicate
      (λ r, length (filter (λ l : Z * Z, l.1 = recipe_id r ∧ l.2 ∈ tags)
                      (recipe_tags db)))).
    rewrite occurrences_NoDup by done. lia.
  - unfold QuerySet.filter_recipe_user, RecipeViewSet.queryset.
    rewrite list_elem_of_filter, !elem_of_filter_link_id_in. tauto.
Qed.

Lemma two_filters_conjoin_and_multiply_witness :
  RecipeViewSet.get_queryset Sample.db
    (Sample.as_alice [("tags", "1,2"); ("ingredients", "1,2")])
  = Ok [Sample.borsch; Sample.borsch; Sample.borsch; Sample.borsch]
  ∧ ∃ rows,
      RecipeViewSet.get_queryset Sample.db
        (Sample.as_alice [("tags", "1,2"); ("ingredients", "1,2")]) = Ok rows
      ∧ occurrences Sample.borsch rows = 4%nat.
Proof.
  split; [vm_compute; reflexivity|].
  destruct (two_filters_conjoin_and_multiply Sample.db
              (Sample.as_alice [("tags", "1,2"); ("ingredients", "1,2")])
              Sample.alice "1,2" "1,2" [1; 2] [1; 2] Sample.borsch
              eq_refl eq_refl eq_refl eq_refl eq_refl)
    as (rows & Hq & Hocc & _).
  - apply (bool_decide_unpack _). vm_compute. exact I.
  - apply (bool_decide_unpack _). vm_compute. exact I.
  - reflexivity.
  - exists rows. split; [exact Hq|]. rewrite Hocc. vm_compute. reflexivity.
Defined.

Lemma filter_link_id_in_ext links ids1 ids2 qs :
  (∀ t, t ∈ ids1 ↔ t ∈ ids2) →
  QuerySet.filter_link_id_in links ids1 qs
  = QuerySet.filter_link_id_in links ids2 qs.
Proof.
  intros Hset. unfold QuerySet.filter_link_id_in.
  induction qs as [|r qs IH]; [done|].
  rewrite !bind_cons, IH. f_equal. f_equal. f_equal.
  apply list_filter_iff. intros l. by rewrite Hset.
Qed.

(** X6: only the set of ids counts.  Two requests whose [tags] lists hold
    the same ids, in any order and however often, get the same rows; so
    naming an id twice does not repeat a recipe. *)
Theorem filter_depends_on_id_set db req1 req2 s1 s2 ids1 ids2 :
  user req1 = user req2 →
  query_get "tags" (query_params req1) = Some s1 →
  query_get "tags" (query_params req2) = Some s2 →
  RecipeViewSet._params_to_ints s1 = Ok ids1 →
  RecipeViewSet._params_to_ints s2 = Ok ids2 →
  (∀ t, t ∈ ids1 ↔ t ∈ ids2) →
  query_get "ingredients" (query_params req1)
  = query_get "ingredients" (query_params req2) →
  RecipeViewSet.get_queryset db req1 = RecipeViewSet.get_queryset db req2.
Proof.
  intros Hu H1 H2 Hs1 Hs2 Hset Hi.
  unfold RecipeViewSet.get_queryset, user_key. cbv zeta.
  rewrite H1, H2, Hi, Hu.
  rewrite (filter_param_given s1 ids1), (filter_param_given s2 ids2) by done.
  by rewrite (filter_link_id_in_ext _ ids1 ids2).
Qed.

Lemma filter_depends_on_id_set_witness :
  RecipeViewSet.get_queryset Sample.db (Sample.as_alice [("tags", "2,1,2")])
  = RecipeViewSet.get_queryset Sample.db (Sample.as_alice [("tags", "1,2")]).
Proof.
  apply (filter_depends_on_id_set Sample.db
           (Sample.as_alice [("tags", "2,1,2")])
           (Sample.as_alice [("tags", "1,2")]) "2,1,2" "1,2" [2; 1; 2] [1; 2]);
    try reflexivity.
  intros t. rewrite !elem_of_cons, !elem_of_nil. tauto.
Defined.

(** ** Edge cases of [assigned_only] *)

(** X7: an [assigned_only] value whose integer is zero ([0], [00], [-0],
    with or without spaces) restricts nothing: the query gives what it
    gives without the parameter. *)
Theorem assigned_only_zero_restricts_nothing {M} `{OwnedModel M}
    db req1 req2 s :
  user req1 = user req2 →
  query_get "assigned_only" (query_params req1) = Some s →
  Py.int s = Ok 0 →
  query_get "assigned_only" (query_params req2) = None →
  BaseViewSet.get_queryset (M := M) db req1
  = BaseViewSet.get_queryset (M := M) db req2.
Proof.
  intros Hu H1 Hs H2.
  unfold BaseViewSet.get_queryset, BaseViewSet.assigned_only, user_key.
  by rewrite H1, H2, Hs, Hu.
Qed.

Lemma assigned_only_zero_restricts_nothing_witness :
  TagViewSet.get_queryset Sample.db (Sample.as_alice [("assigned_only", " 00")])
  = TagViewSet.get_queryset Sample.db (Sample.as_alice []).
Proof.
  exact (assigned_only_zero_restricts_nothing (M := Tag) Sample.db
           (Sample.as_alice [("assigned_only", " 00")]) (Sample.as_alice [])
           " 00" eq_refl eq_refl eq_refl eq_refl).
Defined.

(** X8: the [assigned_only] list is a part of the plain list of the same
    user, and it is in descending order of name as well. *)
Theorem assigned_only_is_sorted_part_of_list {M} `{OwnedModel M}
    db req1 req2 u s n :
  user req1 = Some u →
  user req2 = Some u →
  query_get "assigned_only" (query_params req1) = Some s →
  Py.int s = Ok n →
  n ≠ 0 →
  query_get "assigned_only" (query_params req2) = None →
  ∃ rows1 rows2 : list M,
    BaseViewSet.get_queryset db req1 = Ok rows1
    ∧ BaseViewSet.get_queryset db req2 = Ok rows2
    ∧ StronglySorted (λ x y, String.leb (name y) (name x) = true) rows1
    ∧ ∀ m, m ∈ rows1 → m ∈ rows2.
Proof.
  intros Hu1 Hu2 H1 Hs Hn H2. eexists _, _. split_and!.
  - unfold BaseViewSet.get_queryset, BaseViewSet.assigned_only, user_key.
    rewrite H1, Hs, Hu1. cbn [rbind].
    rewrite bool_decide_eq_true_2 by done. reflexivity.
  - unfold BaseViewSet.get_queryset, BaseViewSet.assigned_only, user_key.
    rewrite H2, Hu2. reflexivity.
  - apply (scoped_sorted_distinct (M := M)).
  - intros m Hm.
    apply (proj1 (scoped_sorted_distinct (M := M) _ _)) in Hm as [Hm Ho].
    apply elem_of_filter_recipe_isnull_false in Hm as [Hm _].
    apply (proj1 (scoped_sorted_distinct (M := M) _ _)).
    cbn. rewrite bool_decide_eq_false_2 by (intros Hne; by apply Hne).
    done.
Qed.

Lemma assigned_only_is_sorted_part_of_list_witness :
  ∃ rows1 rows2 : list Tag,
    TagViewSet.get_queryset Sample.db
      (Sample.as_alice [("assigned_only", "1")]) = Ok rows1
    ∧ TagViewSet.get_queryset Sample.db (Sample.as_alice []) = Ok rows2
    ∧ StronglySorted
        (λ x y, String.leb (tag_name y) (tag_name x) = true) rows1
    ∧ ∀ m, m ∈ rows1 → m ∈ rows2.
Proof.
  refine (assigned_only_is_sorted_part_of_list (M := Tag) Sample.db
            (Sample.as_alice [("assigned_only", "1")]) (Sample.as_alice [])
            Sample.alice "1" 1 eq_refl eq_refl eq_refl eq_refl _ eq_refl).
  lia.
Defined.

(** ** Detail actions and the primary key *)

Lemma queryset_get_absent i qs :
  (∀ r, r ∈ qs → recipe_id r ≠ i) → QuerySet.get i qs = Raise Http404.
Proof.
  intros Hnone. unfold QuerySet.get.
  destruct (filter (λ r, recipe_id r = i) qs) as [|r ?] eqn:Hf; [done|].
  assert (r ∈ filter (λ r, recipe_id r = i) qs) as Hin by (rewrite Hf; left).
  apply list_elem_of_filter in Hin as [Hid Hin]. by destruct (Hnone r Hin).
Qed.

(** Every detail action starts with [get_object] and passes on what it
    raises. *)
Lemma detail_handler_raises svc a pk db req e :
  a ∈ [RecipeViewSet.Retrieve pk; RecipeViewSet.Update pk;
       RecipeViewSet.PartialUpdate pk; RecipeViewSet.Destroy pk;
       RecipeViewSet.UploadImage pk] →
  RecipeViewSet.get_object db req pk = Raise e →
  RecipeViewSet.handler svc a db req = Raise e.
Proof.
  intros Ha Hobj.
  repeat (apply elem_of_cons in Ha as [->|Ha]);
    [..|by apply elem_of_nil in Ha];
    cbn [RecipeViewSet.handler];
    unfold RecipeViewSet.retrieve, RecipeViewSet.update,
      RecipeViewSet.destroy, RecipeViewSet.upload_image;
    by rewrite Hobj.
Qed.

(** X9: a detail action (retrieve, update, partial update, destroy,
    upload-image) on a primary key under which the caller owns no recipe,
    be it the key of another tenant's recipe or of none, answers 404 and
    leaves the database as it was. *)
Theorem foreign_or_missing_recipe_is_404 svc db req u rows pk a :
  perform_authentication RecipeViewSet.authentication_classes db req
  = Ok (Some u) →
  RecipeViewSet.get_queryset db (set_user req (Some u)) = Ok rows →
  (∀ r, r ∈ recipe_table db → recipe_id r = pk →
        recipe_user r ≠ user_id u) →
  a ∈ [RecipeViewSet.Retrieve pk; RecipeViewSet.Update pk;
       RecipeViewSet.PartialUpdate pk; RecipeViewSet.Destroy pk;
       RecipeViewSet.UploadImage pk] →
  RecipeViewSet.view svc a db req
  = (Responded (mkResponse HTTP_404_NOT_FOUND Empty), db).
Proof.
  intros Hauth Hq Hforeign Ha.
  assert (RecipeViewSet.get_object db (set_user req (Some u)) pk
          = Raise Http404) as Hobj.
  { unfold RecipeViewSet.get_object. rewrite Hq. cbn [rbind].
    apply queryset_get_absent. intros r Hr Hid.
    destruct (recipe_get_queryset_scoped db (set_user req (Some u)) u rows
                eq_refl Hq r Hr) as [Hin Ho].
    by apply (Hforeign r Hin Hid). }
  unfold RecipeViewSet.view.
  rewrite (dispatch_authenticated _ _ _ _ u) by done.
  by rewrite (detail_handler_raises svc a pk db _ Http404) by done.
Qed.

Lemma foreign_or_missing_recipe_is_404_witness :
  RecipeViewSet.view Sample.svc (RecipeViewSet.Destroy 3) Sample.db
    (Sample.from_alice [] ∅)
  = (Responded (mkResponse 404 Empty), Sample.db)
  ∧ RecipeViewSet.view Sample.svc (RecipeViewSet.Retrieve 99) Sample.db
      (Sample.from_alice [] ∅)
    = (Responded (mkResponse 404 Empty), Sample.db).
Proof.
  split.
  - refine (foreign_or_missing_recipe_is_404 Sample.svc Sample.db
              (Sample.from_alice [] ∅) Sample.alice
              [Sample.borsch; Sample.risotto] 3 (RecipeViewSet.Destroy 3)
              eq_refl eq_refl _ _).
    + intros r Hr Hid.
      repeat (apply elem_of_cons in Hr as [->|Hr]); try discriminate.
      by apply elem_of_nil in Hr.
    + do 3 right. left.
  - refine (foreign_or_missing_recipe_is_404 Sample.svc Sample.db
              (Sample.from_alice [] ∅) Sample.alice
              [Sample.borsch; Sample.risotto] 99 (RecipeViewSet.Retrieve 99)
              eq_refl eq_refl _ _).
    + intros r Hr Hid.
      repeat (apply elem_of_cons in Hr as [->|Hr]); try discriminate.
      by apply elem_of_nil in Hr.
    + left.
Defined.

Lemma filter_replicate {A} (P : A → Prop) `{∀ x, Decision (P x)}
    (k : nat) (x : A) :
  filter P (replicate k x) = if decide (P x) then replicate k x else [].
Proof.
  induction k as [|k IH]; simpl; [by case_decide|].
  rewrite filter_cons, IH. by case_decide.
Qed.

(** In a join over a table with unique keys, the rows with the key of [x]
    are the copies of [x]. *)
Lemma filter_key_join {A} (key : A → Z) (k : A → nat) (l : list A) (x : A) :
  NoDup (key <$> l) → x ∈ l →
  filter (λ y, key y = key x) (l ≫= λ y, replicate (k y) y)
  = replicate (k x) x.
Proof.
  induction l as [|y l IH]; intros Hnd Hx; [by apply elem_of_nil in Hx|].
  rewrite fmap_cons in Hnd. apply NoDup_cons in Hnd as [Hy Hnd].
  rewrite bind_cons, filter_app, filter_replicate.
  apply elem_of_cons in Hx as [->|Hx].
  - rewrite decide_True by done.
    assert (filter (λ z, key z = key y) (l ≫= λ z, replicate (k z) z) = [])
      as ->; [|by rewrite app_nil_r].
    apply (nothing_owned_nil _ (λ z, z ∈ l ∧ key z = key y)).
    + intros z Hz. apply list_elem_of_filter in Hz as [Hk Hz].
      apply list_elem_of_bind in Hz as (z' & Hrep & Hz').
      apply elem_of_replicate in Hrep as [-> _]. done.
    + intros z [Hz Hk]. apply Hy. rewrite <- Hk.
      by apply list_elem_of_fmap_2.
  - rewrite decide_False; [by rewrite IH|].
    intros Hk. apply Hy. rewrite Hk. by apply list_elem_of_fmap_2.
Qed.

(** X10: [get_object] under a [tags] filter.  For a recipe of the caller,
    looked up by its primary key while the request carries a [tags] list,
    the outcome goes by the number of the recipe's links to listed tags:
    none gives 404 although the recipe is the caller's, one finds the
    recipe, and two or more raise [MultipleObjectsReturned], which no
    handler catches; upload-image then answers 404, or ends in that
    unhandled exception, and saves nothing. *)
Theorem detail_lookup_under_tag_filter svc db req u s ids r :
  perform_authentication RecipeViewSet.authentication_classes db req
  = Ok (Some u) →
  query_get "tags" (query_params req) = Some s →
  RecipeViewSet._params_to_ints s = Ok ids →
  query_get "ingredients" (query_params req) = None →
  NoDup (recipe_id <$> recipe_table db) →
  r ∈ recipe_table db →
  recipe_user r = user_id u →
  let links := length (filter (λ l, l.1 = recipe_id r ∧ l.2 ∈ ids)
                         (recipe_tags db)) in
  RecipeViewSet.get_object db (set_user req (Some u)) (recipe_id r)
  = match links with
    | 0%nat => Raise Http404
    | 1%nat => Ok r
    | _ => Raise MultipleObjectsReturned
    end
  ∧ (links = 0%nat →
     RecipeViewSet.view svc (RecipeViewSet.UploadImage (recipe_id r)) db req
     = (Responded (mkResponse HTTP_404_NOT_FOUND Empty), db))
  ∧ ((2 <= links)%nat →
     RecipeViewSet.view svc (RecipeViewSet.UploadImage (recipe_id r)) db req
     = (Unhandled MultipleObjectsReturned, db)).
Proof.
  intros Hauth Ht Hs Hi Hnd Hr Ho links.
  assert (RecipeViewSet.get_object db (set_user req (Some u)) (recipe_id r)
          = match links with
            | 0%nat => Raise Http404
            | 1%nat => Ok r
            | _ => Raise MultipleObjectsReturned
            end) as Hobj.
  { unfold RecipeViewSet.get_object, RecipeViewSet.get_queryset, user_key.
    cbv zeta. cbn [set_user query_params user]. rewrite Ht, Hi.
    rewrite (filter_param_given s ids) by done. cbn [rbind].
    unfold RecipeViewSet.filter_param at 1. cbn [rbind].
    unfold QuerySet.get, QuerySet.filter_recipe_user,
      QuerySet.filter_link_id_in, RecipeViewSet.queryset.
    rewrite filter_swap.
    rewrite (filter_key_join recipe_id
               (λ r, length (filter (λ l : Z * Z,
                                       l.1 = recipe_id r ∧ l.2 ∈ ids)
                               (recipe_tags db)))) by done.
    rewrite filter_replicate, decide_True by done.
    fold links. by destruct links as [|[|k]]. }
  split_and!; [exact Hobj|..]; intros Hk; unfold RecipeViewSet.view;
    rewrite (dispatch_authenticated _ _ _ _ u) by done.
  - rewrite (detail_handler_raises svc _ (recipe_id r) db _ Http404).
    + reflexivity.
    + do 4 right. left.
    + rewrite Hobj, Hk. reflexivity.
  - rewrite (detail_handler_raises svc _ (recipe_id r) db _
               MultipleObjectsReturned).
    + reflexivity.
    + do 4 right. left.
    + rewrite Hobj. destruct links as [|[|k]]; [lia|lia|done].
Qed.

Lemma detail_lookup_under_tag_filter_witness :
  RecipeViewSet.view Sample.svc (RecipeViewSet.UploadImage 1) Sample.db
    (Sample.from_alice [("tags", "1,2")]
       {[ "image" := VFile "a.jpg" "JPEG..." ]})
  = (Unhandled MultipleObjectsReturned, Sample.db).
Proof.
  refine (proj2 (proj2 (detail_lookup_under_tag_filter Sample.svc Sample.db
                          (Sample.from_alice [("tags", "1,2")]
                             {[ "image" := VFile "a.jpg" "JPEG..." ]})
                          Sample.alice "1,2" [1; 2] Sample.borsch
                          eq_refl eq_refl eq_refl eq_refl _ _ eq_refl)) _).
  - apply (bool_decide_unpack _). vm_compute. exact I.
  - apply (bool_decide_unpack _). vm_compute. exact I.
  - vm_compute. lia.
Defined.

(** ** Creating, then listing *)

Section CreateThenList.
Context {M : Type} `{OwnedModel M}.

(** What the two instances satisfy by computation. *)
Hypothesis objects_with_objects :
  ∀ rows db, objects (with_objects rows db) = rows.
Hypothesis recipe_links_with_objects :
  ∀ (rows : list M) db,
    recipe_links (M := M) (with_objects rows db) = recipe_links (M := M) db.
Hypothesis build_fields :
  ∀ i s u, pk (build i s u) = i ∧ name (build i s u) = s
           ∧ owner (build i s u) = u.

Lemma base_view_create_valid db req u s :
  perform_authentication BaseViewSet.authentication_classes db req
  = Ok (Some u) →
  data req !! "name" = Some (VStr s) →
  s ≠ "" →
  (BaseViewSet.view (M := M) BaseViewSet.Create db req).2
  = with_objects
      ((objects db)
       ++ [build (serializers.next_id (pk <$> objects db)) s (user_id u)])%list
      db.
Proof.
  intros Hauth Hname Hs. unfold BaseViewSet.view.
  rewrite (dispatch_authenticated _ _ _ _ u) by done.
  unfold BaseViewSet.handler.
  by rewrite (base_create_valid (M := M) db _ u s) by done.
Qed.

Lemma created_is_listed db req req2 u s :
  perform_authentication BaseViewSet.authentication_classes db req
  = Ok (Some u) →
  data req !! "name" = Some (VStr s) →
  s ≠ "" →
  user req2 = Some u →
  query_get "assigned_only" (query_params req2) = None →
  ∃ (row : M) rows,
    BaseViewSet.get_queryset
      (BaseViewSet.view (M := M) BaseViewSet.Create db req).2 req2 = Ok rows
    ∧ row ∈ rows ∧ name row = s ∧ owner row = user_id u
    ∧ (pk row ∉ (pk <$> objects db))
    ∧ ∀ m, m ∈ objects db → owner m = user_id u → m ∈ rows.
Proof.
  intros Hauth Hname Hs Hu2 Hq.
  rewrite (base_view_create_valid db req u s) by done.
  set (row := build (serializers.next_id (pk <$> objects db)) s (user_id u)).
  destruct (build_fields (serializers.next_id (pk <$> objects db)) s
              (user_id u)) as (Hpk & Hn & Ho). fold row in Hpk, Hn, Ho.
  exists row. eexists. split_and!.
  - unfold BaseViewSet.get_queryset, BaseViewSet.assigned_only, user_key.
    rewrite Hq, Hu2. reflexivity.
  - apply (proj1 (scoped_sorted_distinct (M := M) _ _)). cbn.
    unfold BaseViewSet.queryset. rewrite objects_with_objects.
    split; [|done]. apply elem_of_app. right. left.
  - done.
  - done.
  - rewrite Hpk. intros Hin. apply next_id_fresh in Hin. lia.
  - intros m Hm Hom.
    apply (proj1 (scoped_sorted_distinct (M := M) _ _)). cbn.
    unfold BaseViewSet.queryset. rewrite objects_with_objects.
    split; [|done]. apply elem_of_app. by left.
Qed.

Lemma filter_user_other_row (w : Z) (rows : list M) (row : M) (k : nat) :
  owner row ≠ w →
  QuerySet.filter_user w (rows ++ replicate k row)
  = QuerySet.filter_user w rows.
Proof.
  intros Hne. unfold QuerySet.filter_user.
  rewrite filter_app, filter_replicate, decide_False by done.
  apply app_nil_r.
Qed.

Lemma other_tenant_list_unchanged a db req req2 w :
  user req2 = Some w →
  (∀ u, perform_authentication BaseViewSet.authentication_classes db req
        = Ok (Some u) → user_id u ≠ user_id w) →
  BaseViewSet.get_queryset (BaseViewSet.view (M := M) a db req).2 req2
  = BaseViewSet.get_queryset (M := M) db req2.
Proof.
  intros Hw Hother. unfold BaseViewSet.view, dispatch.
  destruct (initial _ _ db req) as [req'|] eqn:Hi; cbn [rbind]; [|done].
  apply initial_Ok in Hi as (u & Hauth & ->).
  specialize (Hother u Hauth).
  destruct a; cbn [BaseViewSet.handler].
  - unfold BaseViewSet.list_action.
    by destruct (BaseViewSet.get_queryset db (set_user req (Some u))).
  - unfold BaseViewSet.create, BaseViewSet.perform_create, user_key.
    cbn [set_user user data].
    destruct (serializers.validate_name (data req)) as [s|]; cbn [rbind];
      [|done].
    cbn [fst snd].
    set (row := build (serializers.next_id (pk <$> objects db)) s (user_id u)).
    assert (owner row ≠ user_id w) as Hrow.
    { unfold row.
      by destruct (build_fields (serializers.next_id (pk <$> objects db)) s
                     (user_id u)) as (_ & _ & ->). }
    unfold BaseViewSet.get_queryset, BaseViewSet.queryset, user_key.
    rewrite Hw. destruct (BaseViewSet.assigned_only req2) as [flag|];
      cbn [rbind]; [|done].
    rewrite objects_with_objects, recipe_links_with_objects.
    do 3 f_equal. case_bool_decide.
    + unfold QuerySet.filter_recipe_isnull_false.
      rewrite bind_app, bind_cons. cbn [mbind list_bind].
      rewrite app_nil_r.
      by apply filter_user_other_row.
    + by apply (filter_user_other_row _ _ row 1).
Qed.

End CreateThenList.

(** X11: after an authenticated create with a non-empty name, the plain
    list of the creator holds the new tag (ingredient): its name is the
    submitted one, its owner the creator, its id none of the ids in use
    before, and every record the creator had is still listed. *)
Theorem created_record_is_in_the_creators_list db req req2 u s :
  perform_authentication BaseViewSet.authentication_classes db req
  = Ok (Some u) →
  data req !! "name" = Some (VStr s) →
  s ≠ "" →
  user req2 = Some u →
  query_get "assigned_only" (query_params req2) = None →
  (∃ row rows,
     TagViewSet.get_queryset
       (TagViewSet.view BaseViewSet.Create db req).2 req2 = Ok rows
     ∧ row ∈ rows ∧ tag_name row = s ∧ tag_user row = user_id u
     ∧ (tag_id row ∉ (tag_id <$> tag_table db))
     ∧ ∀ t, t ∈ tag_table db → tag_user t = user_id u → t ∈ rows)
  ∧ (∃ row rows,
     IngredientViewSet.get_queryset
       (IngredientViewSet.view BaseViewSet.Create db req).2 req2 = Ok rows
     ∧ row ∈ rows ∧ ingredient_name row = s
     ∧ ingredient_user row = user_id u
     ∧ (ingredient_id row ∉ (ingredient_id <$> ingredient_table db))
     ∧ ∀ i, i ∈ ingredient_table db → ingredient_user i = user_id u →
            i ∈ rows).
Proof.
  intros Hauth Hname Hs Hu2 Hq. split.
  - exact (created_is_listed (M := Tag) (λ _ _, eq_refl)
             (λ _ _ _, conj eq_refl (conj eq_refl eq_refl))
             db req req2 u s Hauth Hname Hs Hu2 Hq).
  - exact (created_is_listed (M := Ingredient) (λ _ _, eq_refl)
             (λ _ _ _, conj eq_refl (conj eq_refl eq_refl))
             db req req2 u s Hauth Hname Hs Hu2 Hq).
Qed.

Lemma created_record_is_in_the_creators_list_witness :
  TagViewSet.get_queryset
    (TagViewSet.view BaseViewSet.Create Sample.db
       (Sample.from_alice [] {[ "name" := VStr "Quick" ]})).2
    (Sample.as_alice [])
  = Ok [Sample.zest; Sample.vegan; mkTag 5 "Quick" 1; Sample.dessert]
  ∧ ∃ row rows,
      TagViewSet.get_queryset
        (TagViewSet.view BaseViewSet.Create Sample.db
           (Sample.from_alice [] {[ "name" := VStr "Quick" ]})).2
        (Sample.as_alice []) = Ok rows
      ∧ row ∈ rows ∧ tag_name row = "Quick" ∧ tag_user row = 1
      ∧ (tag_id row ∉ (tag_id <$> tag_table Sample.db))
      ∧ ∀ t, t ∈ tag_table Sample.db → tag_user t = 1 → t ∈ rows.
Proof.
  split; [vm_compute; reflexivity|].
  refine (proj1 (created_record_is_in_the_creators_list Sample.db
                   (Sample.from_alice [] {[ "name" := VStr "Quick" ]})
                   (Sample.as_alice []) Sample.alice "Quick"
                   eq_refl _ _ eq_refl eq_refl)).
  - vm_compute. reflexivity.
  - discriminate.
Defined.

(** X12: a request to the tag (ingredient) endpoint changes no other
    user's tag (ingredient) list: whatever the action and the payload, a
    user other than the authenticated caller gets the same rows for the
    same query before and after, with or without [assigned_only]. *)
Theorem create_leaves_other_users_lists a db req req2 w :
  user req2 = Some w →
  (∀ u, perform_authentication BaseViewSet.authentication_classes db req
        = Ok (Some u) → user_id u ≠ user_id w) →
  TagViewSet.get_queryset (TagViewSet.view a db req).2 req2
  = TagViewSet.get_queryset db req2
  ∧ IngredientViewSet.get_queryset (IngredientViewSet.view a db req).2 req2
    = IngredientViewSet.get_queryset db req2.
Proof.
  intros Hw Hother. split.
  - exact (other_tenant_list_unchanged (M := Tag) (λ _ _, eq_refl)
             (λ _ _, eq_refl) (λ _ _ _, conj eq_refl (conj eq_refl eq_refl))
             a db req req2 w Hw Hother).
  - exact (other_tenant_list_unchanged (M := Ingredient) (λ _ _, eq_refl)
             (λ _ _, eq_refl) (λ _ _ _, conj eq_refl (conj eq_refl eq_refl))
             a db req req2 w Hw Hother).
Qed.

Lemma create_leaves_other_users_lists_witness :
  TagViewSet.get_queryset
    (TagViewSet.view BaseViewSet.Create Sample.db
       (Sample.from_alice [] {[ "name" := VStr "Quick" ]})).2
    (mkRequest [] [("assigned_only", "1")] ∅ (Some Sample.bob))
  = TagViewSet.get_queryset Sample.db
      (mkRequest [] [("assigned_only", "1")] ∅ (Some Sample.bob)).
Proof.
  refine (proj1 (create_leaves_other_users_lists BaseViewSet.Create Sample.db
                   (Sample.from_alice [] {[ "name" := VStr "Quick" ]})
                   (mkRequest [] [("assigned_only", "1")] ∅ (Some Sample.bob))
                   Sample.bob eq_refl _)).
  intros u Hu. vm_compute in Hu. injection Hu as <-. discriminate.
Defined.

(** ** What a request can write *)

(** The steps of [recipes_step], with the owner of every row they touch. *)
Lemma recipe_handler_step_owned svc a db req u resp db' :
  user req = Some u →
  RecipeViewSet.handler svc a db req = Ok (resp, db') →
  recipe_table db' = recipe_table db
  ∨ (∃ made, recipe_table db' = (recipe_table db ++ [made])%list
             ∧ recipe_user made = user_id u)
  ∨ (∃ inst saved, inst ∈ recipe_table db
       ∧ recipe_user inst = user_id u
       ∧ recipe_user saved = user_id u
       ∧ recipe_table db'
         = (λ r, if decide (recipe_id r = recipe_id inst) then saved else r)
             <$> recipe_table db)
  ∨ (∃ inst, inst ∈ recipe_table db
       ∧ recipe_user inst = user_id u
       ∧ recipe_table db'
         = filter (λ r, recipe_id r ≠ recipe_id inst) (recipe_table db)).
Proof.
  intros Hu.
  destruct a as [| |pk|pk|pk|pk|pk]; cbn [RecipeViewSet.handler];
    unfold RecipeViewSet.list_action, RecipeViewSet.create,
      RecipeViewSet.retrieve, RecipeViewSet.update, RecipeViewSet.destroy,
      RecipeViewSet.upload_image, RecipeViewSet.perform_create, user_key;
    cbv zeta.
  - destruct (RecipeViewSet.get_queryset db req); cbn [rbind];
      [|discriminate].
    intros [= _ <-]. by left.
  - rewrite Hu.
    destruct (serializers.validate svc _ db false (data req)) as [v|];
      cbn [rbind]; [|discriminate].
    intros [= _ <-]. right; left. by eexists.
  - destruct (RecipeViewSet.get_object db req pk); cbn [rbind];
      [|discriminate].
    intros [= _ <-]. by left.
  - destruct (RecipeViewSet.get_object db req pk) as [r|] eqn:Hobj;
      cbn [rbind]; [|discriminate].
    destruct (serializers.validate svc _ db false (data req)) as [v|];
      cbn [rbind]; [|discriminate].
    intros [= _ <-]. right; right; left.
    apply (get_object_Ok _ _ u) in Hobj as (Hin & _ & Ho); [|done].
    by exists r, (serializers.assign svc v r).
  - destruct (RecipeViewSet.get_object db req pk) as [r|] eqn:Hobj;
      cbn [rbind]; [|discriminate].
    destruct (serializers.validate svc _ db true (data req)) as [v|];
      cbn [rbind]; [|discriminate].
    intros [= _ <-]. right; right; left.
    apply (get_object_Ok _ _ u) in Hobj as (Hin & _ & Ho); [|done].
    by exists r, (serializers.assign svc v r).
  - destruct (RecipeViewSet.get_object db req pk) as [r|] eqn:Hobj;
      cbn [rbind]; [|discriminate].
    intros [= _ <-]. right; right; right.
    apply (get_object_Ok _ _ u) in Hobj as (Hin & _ & Ho); [|done].
    by exists r.
  - destruct (RecipeViewSet.get_object db req pk) as [r|] eqn:Hobj;
      cbn [rbind]; [|discriminate].
    apply (get_object_Ok _ _ u) in Hobj as (Hin & _ & Ho); [|done].
    destruct (serializers.validate svc _ db false (data req)) as [v|[]];
      try discriminate.
    + intros [= _ <-]. right; right; left.
      by exists r, (serializers.assign svc v r).
    + intros [= _ <-]. by left.
Qed.

Lemma filter_user_rewritten w i saved (t : list Recipe) :
  (∀ r, r ∈ t → recipe_id r = i → recipe_user r ≠ w) →
  recipe_user saved ≠ w →
  QuerySet.filter_recipe_user w
    ((λ r, if decide (recipe_id r = i) then saved else r) <$> t)
  = QuerySet.filter_recipe_user w t.
Proof.
  unfold QuerySet.filter_recipe_user.
  induction t as [|r t IH]; intros Hrows Hsaved; [done|].
  assert (∀ r', r' ∈ t → recipe_id r' = i → recipe_user r' ≠ w) as Ht
    by (intros r' Hr'; apply Hrows; by right).
  rewrite fmap_cons, !filter_cons, (IH Ht Hsaved).
  destruct (decide (recipe_id r = i)) as [Hid|Hid]; [|done].
  rewrite (decide_False (P := recipe_user saved = w)) by done.
  rewrite (decide_False (P := recipe_user r = w)); [done|].
  apply Hrows; [left|done].
Qed.

Lemma filter_user_deleted w i (t : list Recipe) :
  (∀ r, r ∈ t → recipe_id r = i → recipe_user r ≠ w) →
  QuerySet.filter_recipe_user w (filter (λ r, recipe_id r ≠ i) t)
  = QuerySet.filter_recipe_user w t.
Proof.
  unfold QuerySet.filter_recipe_user.
  induction t as [|r t IH]; intros Hrows; [done|].
  rewrite !filter_cons.
  destruct (decide (recipe_id r ≠ i)) as [Hne|Heq].
  - rewrite filter_cons, IH; [done|].
    intros r' Hr'. apply Hrows. by right.
  - rewrite IH by (intros r' Hr'; apply Hrows; by right).
    rewrite (decide_False (P := recipe_user r = w)); [done|].
    apply Hrows; [left|]. by destruct (decide (recipe_id r = i)).
Qed.

(** X13: no request writes to another user's recipes.  On a database with
    unique recipe ids, whatever the endpoint, action, query string and
    payload, the recipes owned by a user other than the authenticated
    caller are the same rows, in the same order, after the request as
    before. *)
Theorem recipe_writes_stay_with_the_caller svc e db req out db' w :
  api svc e db req = (out, db') →
  NoDup (recipe_id <$> recipe_table db) →
  (∀ u, perform_authentication [TokenAuthentication] db req = Ok (Some u) →
        user_id u ≠ w) →
  QuerySet.filter_recipe_user w (recipe_table db')
  = QuerySet.filter_recipe_user w (recipe_table db).
Proof.
  intros Hapi Hnd Hother.
  destruct e as [a|a|a]; cbn [api] in Hapi;
    unfold TagViewSet.view, IngredientViewSet.view, BaseViewSet.view,
      RecipeViewSet.view, dispatch in Hapi;
    (destruct (initial _ _ db req) as [req'|] eqn:Hi; cbn [rbind] in Hapi;
     [|by injection Hapi as _ <-]).
  - destruct (BaseViewSet.handler a db req') as [[resp d]|] eqn:Hh;
      injection Hapi as _ <-; [|done].
    by rewrite (base_handler_keeps_recipes_tag a db req' resp d).
  - destruct (BaseViewSet.handler a db req') as [[resp d]|] eqn:Hh;
      injection Hapi as _ <-; [|done].
    by rewrite (base_handler_keeps_recipes_ingredient a db req' resp d).
  - apply initial_Ok in Hi as (u & Hauth & ->).
    specialize (Hother u Hauth).
    destruct (RecipeViewSet.handler svc a db _) as [[resp d]|] eqn:Hh;
      injection Hapi as _ <-; [|done].
    apply (recipe_handler_step_owned svc a db _ u) in Hh; [|done].
    assert (∀ inst, inst ∈ recipe_table db → recipe_user inst = user_id u →
              ∀ r, r ∈ recipe_table db → recipe_id r = recipe_id inst →
                   recipe_user r ≠ w) as Hrows.
    { intros inst Hin Ho r Hr Hid.
      rewrite (same_key_same_row recipe_id _ r inst Hnd Hr Hin Hid).
      by rewrite Ho. }
    destruct Hh as [->|[(made & -> & Hmade)
                      |[(inst & saved & Hin & Ho & Hs & ->)
                       |(inst & Hin & Ho & ->)]]].
    + done.
    + unfold QuerySet.filter_recipe_user.
      rewrite filter_app, filter_cons, decide_False by by rewrite Hmade.
      apply app_nil_r.
    + apply filter_user_rewritten; [by apply Hrows|by rewrite Hs].
    + apply filter_user_deleted. by apply Hrows.
Qed.

Lemma recipe_writes_stay_with_the_caller_witness :
  QuerySet.filter_recipe_user 2
    (recipe_table
       (api Sample.svc (Recipes (RecipeViewSet.Update 3)) Sample.db
          Sample.put_with_owner).2)
  = [Sample.soup]
  ∧ QuerySet.filter_recipe_user 2
      (recipe_table
         (api Sample.svc (Recipes (RecipeViewSet.Destroy 1)) Sample.db
            (Sample.from_alice [] ∅)).2)
    = QuerySet.filter_recipe_user 2 (recipe_table Sample.db).
Proof.
  split; [vm_compute; reflexivity|].
  refine (recipe_writes_stay_with_the_caller Sample.svc
            (Recipes (RecipeViewSet.Destroy 1)) Sample.db
            (Sample.from_alice [] ∅)
            (api Sample.svc (Recipes (RecipeViewSet.Destroy 1)) Sample.db
               (Sample.from_alice [] ∅)).1
            (api Sample.svc (Recipes (RecipeViewSet.Destroy 1)) Sample.db
               (Sample.from_alice [] ∅)).2 2 _ _ _).
  - apply surjective_pairing.
  - apply (bool_decide_unpack _). vm_compute. exact I.
  - intros u Hu. vm_compute in Hu. injection Hu as <-. discriminate.
Defined.

Lemma base_handler_success {M} `{OwnedModel M} a db req resp db' :
  BaseViewSet.handler (M := M) a db req = Ok (resp, db') →
  status_code resp < 400.
Proof.
  destruct a; cbn [BaseViewSet.handler];
    unfold BaseViewSet.list_action, BaseViewSet.create.
  - destruct (BaseViewSet.get_queryset db req); cbn [rbind]; [|discriminate].
    by intros [= <- _].
  - destruct (serializers.validate_name (data req)); cbn [rbind];
      [|discriminate].
    destruct (BaseViewSet.perform_create _ db req); cbn [rbind];
      [|discriminate].
    by intros [= <- _].
Qed.

Lemma recipe_handler_success_or_unchanged svc a db req resp db' :
  RecipeViewSet.handler svc a db req = Ok (resp, db') →
  status_code resp < 400 ∨ db' = db.
Proof.
  destruct a as [| |pk|pk|pk|pk|pk]; cbn [RecipeViewSet.handler];
    unfold RecipeViewSet.list_action, RecipeViewSet.create,
      RecipeViewSet.retrieve, RecipeViewSet.update, RecipeViewSet.destroy,
      RecipeViewSet.upload_image; cbv zeta.
  - destruct (RecipeViewSet.get_queryset db req); cbn [rbind];
      [|discriminate].
    intros [= <- _]. by left.
  - destruct (serializers.validate svc _ db false (data req)); cbn [rbind];
      [|discriminate].
    destruct (RecipeViewSet.perform_create _ db req); cbn [rbind];
      [|discriminate].
    intros [= <- _]. by left.
  - destruct (RecipeViewSet.get_object db req pk); cbn [rbind];
      [|discriminate].
    intros [= <- _]. by left.
  - destruct (RecipeViewSet.get_object db req pk); cbn [rbind];
      [|discriminate].
    destruct (serializers.validate svc _ db false (data req)); cbn [rbind];
      [|discriminate].
    intros [= <- _]. by left.
  - destruct (RecipeViewSet.get_object db req pk); cbn [rbind];
      [|discriminate].
    destruct (serializers.validate svc _ db true (data req)); cbn [rbind];
      [|discriminate].
    intros [= <- _]. by left.
  - destruct (RecipeViewSet.get_object db req pk); cbn [rbind];
      [|discriminate].
    intros [= <- _]. by left.
  - destruct (RecipeViewSet.get_object db req pk); cbn [rbind];
      [|discriminate].
    destruct (serializers.validate svc _ db false (data req)) as [v|[]];
      try discriminate.
    + intros [= <- _]. by left.
    + intros [= _ <-]. by right.
Qed.

(** X14: a request that fails writes nothing.  Whenever the outcome is an
    unhandled exception or a response with status 400 or more, be it 401,
    404, the 400 of a failed validation or of upload-image, the database
    and the storage are exactly as before. *)
Theorem failed_request_writes_nothing svc e db req out db' :
  api svc e db req = (out, db') →
  (∀ r, out = Responded r → 400 <= status_code r) →
  db' = db.
Proof.
  intros Hapi Hfail.
  destruct e as [a|a|a]; cbn [api] in Hapi;
    unfold TagViewSet.view, IngredientViewSet.view, BaseViewSet.view,
      RecipeViewSet.view, dispatch in Hapi;
    (destruct (initial _ _ db req) as [req'|] eqn:Hi; cbn [rbind] in Hapi;
     [|by injection Hapi as _ <-]).
  - destruct (BaseViewSet.handler a db req') as [[resp d]|] eqn:Hh;
      injection Hapi as Hout Hdb; subst out db'; [|done].
    apply base_handler_success in Hh. specialize (Hfail resp eq_refl). lia.
  - destruct (BaseViewSet.handler a db req') as [[resp d]|] eqn:Hh;
      injection Hapi as Hout Hdb; subst out db'; [|done].
    apply base_handler_success in Hh. specialize (Hfail resp eq_refl). lia.
  - destruct (RecipeViewSet.handler svc a db req') as [[resp d]|] eqn:Hh;
      injection Hapi as Hout Hdb; subst out db'; [|done].
    apply recipe_handler_success_or_unchanged in Hh as [Hok| ->]; [|done].
    specialize (Hfail resp eq_refl). lia.
Qed.

Lemma failed_request_writes_nothing_witness :
  (api Sample.svc (Recipes (RecipeViewSet.UploadImage 1)) Sample.db
     (Sample.from_alice [] {[ "image" := VStr "notimage" ]})).1
  = Responded (mkResponse 400 (Errors ["image"]))
  ∧ (api Sample.svc (Recipes (RecipeViewSet.UploadImage 1)) Sample.db
       (Sample.from_alice [] {[ "image" := VStr "notimage" ]})).2
    = Sample.db.
Proof.
  split; [vm_compute; reflexivity|].
  refine (failed_request_writes_nothing Sample.svc
            (Recipes (RecipeViewSet.UploadImage 1)) Sample.db
            (Sample.from_alice [] {[ "image" := VStr "notimage" ]})
            (api Sample.svc (Recipes (RecipeViewSet.UploadImage 1)) Sample.db
               (Sample.from_alice [] {[ "image" := VStr "notimage" ]})).1
            (api Sample.svc (Recipes (RecipeViewSet.UploadImage 1)) Sample.db
               (Sample.from_alice [] {[ "image" := VStr "notimage" ]})).2
            _ _).
  - apply surjective_pairing.
  - intros r Hr. vm_compute in Hr. injection Hr as <-. vm_compute. discriminate.
Defined.

(** ** Creating a recipe, then looking it up *)

Lemma recipe_view_create_valid svc db req u v :
  perform_authentication RecipeViewSet.authentication_classes db req
  = Ok (Some u) →
  serializers.validate svc serializers.RecipeSerializer db false (data req)
  = Ok v →
  (RecipeViewSet.view svc RecipeViewSet.Create db req).2
  = (serializers.create v (user_id u) db).2.
Proof.
  intros Hauth Hv. unfold RecipeViewSet.view.
  rewrite (dispatch_authenticated _ _ _ _ u) by done.
  cbn [RecipeViewSet.handler].
  unfold RecipeViewSet.create, RecipeViewSet.perform_create, user_key.
  cbv zeta. cbn [RecipeViewSet.get_serializer_class set_user data user].
  unfold RecipeViewSet.serializer_class. by rewrite Hv.
Qed.

(** X15: a recipe that an authenticated create has made is found under
    its id by its creator, and by nobody else: for a lookup without
    filter parameters [get_object] returns the new row to the creator and
    raises the 404 exception for every other user. *)
Theorem created_recipe_is_found_by_its_owner_only svc db req req2 u v :
  perform_authentication RecipeViewSet.authentication_classes db req
  = Ok (Some u) →
  serializers.validate svc serializers.RecipeSerializer db false (data req)
  = Ok v →
  NoDup (recipe_id <$> recipe_table db) →
  query_get "tags" (query_params req2) = None →
  query_get "ingredients" (query_params req2) = None →
  ∃ made,
    recipe_table (RecipeViewSet.view svc RecipeViewSet.Create db req).2
    = (recipe_table db ++ [made])%list
    ∧ recipe_user made = user_id u
    ∧ (user req2 = Some u →
       RecipeViewSet.get_object
         (RecipeViewSet.view svc RecipeViewSet.Create db req).2 req2
         (recipe_id made) = Ok made)
    ∧ (∀ w, user req2 = Some w → user_id w ≠ user_id u →
            RecipeViewSet.get_object
              (RecipeViewSet.view svc RecipeViewSet.Create db req).2 req2
              (recipe_id made) = Raise Http404).
Proof.
  intros Hauth Hv Hnd Ht Hi.
  rewrite (recipe_view_create_valid svc db req u v) by done.
  set (made := (serializers.create v (user_id u) db).1).
  set (db' := (serializers.create v (user_id u) db).2).
  assert (recipe_table db' = (recipe_table db ++ [made])%list) as Htab by done.
  assert (NoDup (recipe_id <$> recipe_table db')) as Hnd'.
  { rewrite Htab, fmap_app. apply NoDup_app. split_and!; [done| |].
    - intros i Hin Hmade. cbn in Hmade.
      apply list_elem_of_singleton in Hmade as ->.
      apply next_id_fresh in Hin. lia.
    - cbn. apply NoDup_singleton. }
  assert (made ∈ recipe_table db') as Hin
    by (rewrite Htab; apply elem_of_app; right; left).
  exists made. split_and!; [done|done|..].
  - intros Hu2. by apply (get_object_owned db' req2 u).
  - intros w Hw Hne. unfold RecipeViewSet.get_object.
    destruct (RecipeViewSet.get_queryset db' req2) as [rows|e] eqn:Hq.
    + cbn [rbind]. apply queryset_get_absent. intros r Hr Hid.
      destruct (recipe_get_queryset_scoped db' req2 w rows Hw Hq r Hr)
        as [Hr' Ho].
      rewrite (same_key_same_row recipe_id _ r made Hnd' Hr' Hin Hid) in Ho.
      by apply Hne.
    + exfalso. unfold RecipeViewSet.get_queryset, user_key in Hq.
      cbv zeta in Hq. rewrite Ht, Hi, Hw in Hq. discriminate.
Qed.

Lemma created_recipe_is_found_by_its_owner_only_witness :
  ∃ made,
    recipe_table
      (RecipeViewSet.view Sample.svc RecipeViewSet.Create Sample.db
         Sample.put_with_owner).2
    = (recipe_table Sample.db ++ [made])%list
    ∧ recipe_user made = 1
    ∧ (user (Sample.as_alice []) = Some Sample.alice →
       RecipeViewSet.get_object
         (RecipeViewSet.view Sample.svc RecipeViewSet.Create Sample.db
            Sample.put_with_owner).2 (Sample.as_alice [])
         (recipe_id made) = Ok made)
    ∧ (∀ w, user (Sample.as_alice []) = Some w → user_id w ≠ 1 →
            RecipeViewSet.get_object
              (RecipeViewSet.view Sample.svc RecipeViewSet.Create Sample.db
                 Sample.put_with_owner).2 (Sample.as_alice [])
              (recipe_id made) = Raise Http404).
Proof.
  refine (created_recipe_is_found_by_its_owner_only Sample.svc Sample.db
            Sample.put_with_owner (Sample.as_alice []) Sample.alice
            (serializers.mkValidated (Some "Taken") (Some 1) (Some 1)
               None None None)
            eq_refl _ _ eq_refl eq_refl).
  - vm_compute. reflexivity.
  - apply (bool_decide_unpack _). vm_compute. exact I.
Defined.
